(** * AOI management of the MGRS map application

    A shallow embedding of the logic of [src/components/CoordinateControl.tsx]
    (the AOI record, the GeoJSON interchange functions, the localStorage
    helper and the event handlers of the [Map] and [MapContent]
    components), followed by the properties checked against it.

    Conventions of the embedding:
    - a JavaScript [number] is a value of an arbitrary carrier with the
      arithmetic the handlers use (class [JsNumber]); the carrier is
      instantiated with [Q] to run the handlers and with [R] where a
      cosine is needed;
    - a JavaScript string is a [string], one [ascii] per code unit below 256;
    - [throw] / [try ... catch] is the [outcome] monad;
    - React state is a record, each handler a function on it; values drawn
      from the environment ([randomUUID()], [Date.now()], [new Date()],
      [window.confirm]) are arguments of the handler that reads them;
    - [localStorage] is a finite map from keys to strings. *)

From stdpp Require Import base option list gmap strings.
From Stdlib Require Import Ascii String DecimalString QArith Reals Lra Lia.

#[local] Close Scope Q_scope.
#[local] Close Scope R_scope.
#[local] Open Scope string_scope.
#[local] Open Scope list_scope.
#[local] Open Scope nat_scope.

(** ** Exceptions *)

Module Outcome.

(** What a JavaScript call does: it returns a value or throws. *)
Inductive outcome (A : Type) : Type :=
| Return (a : A)
| Throw (message : string).
Arguments Return {A} a.
Arguments Throw {A} message.

Definition bind {A B} (m : outcome A) (k : A -> outcome B) : outcome B :=
  match m with
  | Return a => k a
  | Throw e => Throw e
  end.

(** [try { body } catch (error) { handler }] *)
Definition try_catch {A} (body : outcome A) (handler : string -> outcome A)
  : outcome A :=
  match body with
  | Return a => Return a
  | Throw e => handler e
  end.

(** [xs.map(f)] where [f] may throw: the first exception aborts the map. *)
Fixpoint traverse {A B} (f : A -> outcome B) (xs : list A)
  : outcome (list B) :=
  match xs with
  | [] => Return []
  | x :: rest =>
      bind (f x) (fun y => bind (traverse f rest) (fun ys => Return (y :: ys)))
  end.

Definition returns {A} (m : outcome A) : bool :=
  match m with Return _ => true | Throw _ => false end.

End Outcome.
Export Outcome.

(** [x ← m; k] runs [m] and, unless it threw, continues with [k]. *)
#[export] Instance outcome_ret : MRet outcome := @Return.
#[export] Instance outcome_bind : MBind outcome :=
  fun A B k m => Outcome.bind m k.

(** ** Numbers *)

(** The arithmetic the handlers perform on coordinates. *)
Class JsNumber (num : Type) := {
  zero : num;
  add : num -> num -> num;
  sub : num -> num -> num;
  div : num -> num -> num;
  ofNat : nat -> num;          (* an array length used as a number *)
  hundredth : num;             (* the literal 0.01 *)
}.

#[export] Instance Q_number : JsNumber Q := {|
  zero := 0%Q;
  add := Qplus;
  sub := Qminus;
  div := Qdiv;
  ofNat := fun n => inject_Z (Z.of_nat n);
  hundredth := (1 # 100)%Q;
|}.

#[export] Instance R_number : JsNumber R := {|
  zero := 0%R;
  add := Rplus;
  sub := Rminus;
  div := Rdiv;
  ofNat := INR;
  hundredth := (1 / 100)%R;
|}.

(** ** Strings *)

(** [n.toString()] for a non-negative integer: its decimal digits. *)
Definition toString (n : N) : string :=
  NilZero.string_of_uint (N.to_uint n).

(** The code units [String.prototype.trim] strips: TAB, LF, VT, FF, CR,
    space and the no-break space. *)
Definition isWhiteSpace (c : ascii) : bool :=
  let n := nat_of_ascii c in
  (Nat.leb 9 n && Nat.leb n 13) || Nat.eqb n 32 || Nat.eqb n 160.

Fixpoint trimStart (s : string) : string :=
  match s with
  | EmptyString => EmptyString
  | String c rest => if isWhiteSpace c then trimStart rest else s
  end.

Fixpoint trimEnd (s : string) : string :=
  match s with
  | EmptyString => EmptyString
  | String c rest =>
      match trimEnd rest with
      | EmptyString => if isWhiteSpace c then EmptyString else String c EmptyString
      | rest' => String c rest'
      end
  end.

Definition trim (s : string) : string := trimEnd (trimStart s).

(** Truthiness of a string: only the empty string is falsy. *)
Definition truthy (s : string) : bool :=
  match s with EmptyString => false | String _ _ => true end.

(** [a || b] on strings. *)
Definition orElse (a b : string) : string := if truthy a then a else b.

(** [v || b] where [v] may be [undefined] or [null]. *)
Definition orDefault (v : option string) (b : string) : string :=
  match v with
  | Some a => orElse a b
  | None => b
  end.

(** ** Data model *)

(** [L.Layer]: a handle on an object drawn on the map. *)
Definition Layer := nat.

(** [L.LatLng] *)
Record LatLng (num : Type) := mkLatLng { lat : num; lng : num }.
Arguments mkLatLng {num} lat lng.
Arguments lat {num} l.
Arguments lng {num} l.

(** [type AOI]; an element of [bounds] is a two-element array. *)
Record AOI (num : Type) := mkAOI {
  id : string;
  mgrsCoordinate : string;
  dimensions : string;
  bounds : list (num * num);
  name : string;
  dateCreated : string;
  layer : option Layer;
}.
Arguments mkAOI {num} id mgrsCoordinate dimensions bounds name dateCreated layer.
Arguments id {num} a.
Arguments mgrsCoordinate {num} a.
Arguments dimensions {num} a.
Arguments bounds {num} a.
Arguments name {num} a.
Arguments dateCreated {num} a.
Arguments layer {num} a.

(** [{ ...aoi, name: n }] and [{ ...aoi, bounds: b }] *)
Definition withName {num} (aoi : AOI num) (n : string) : AOI num :=
  mkAOI (id aoi) (mgrsCoordinate aoi) (dimensions aoi) (bounds aoi) n
        (dateCreated aoi) (layer aoi).

Definition withBounds {num} (aoi : AOI num) (b : list (num * num)) : AOI num :=
  mkAOI (id aoi) (mgrsCoordinate aoi) (dimensions aoi) b (name aoi)
        (dateCreated aoi) (layer aoi).

(** [({ layer, ...rest }) => rest] *)
Definition withoutLayer {num} (aoi : AOI num) : AOI num :=
  mkAOI (id aoi) (mgrsCoordinate aoi) (dimensions aoi) (bounds aoi) (name aoi)
        (dateCreated aoi) None.

(** The part of the [geojson] types the application reads.  A member that
    is absent, [undefined] or [null] is [None]. *)
Module geojson.

(** [feature.properties]: the members the application reads or writes. *)
Record Properties := mkProperties {
  id : option string;
  name : option string;
  mgrsCoordinate : option string;
  dimensions : option string;
  dateCreated : option string;
}.

(** [Position]: a two-element array; GeoJSON puts the longitude first. *)
Definition Position (num : Type) : Type := num * num.

(** [Geometry], by its [type] member, with its [coordinates]. *)
Inductive Geometry (num : Type) : Type :=
| Point (coordinates : Position num)
| MultiPoint (coordinates : list (Position num))
| LineString (coordinates : list (Position num))
| MultiLineString (coordinates : list (list (Position num)))
| Polygon (coordinates : list (list (Position num)))
| MultiPolygon (coordinates : list (list (list (Position num)))).
Arguments Point {num} coordinates.
Arguments MultiPoint {num} coordinates.
Arguments LineString {num} coordinates.
Arguments MultiLineString {num} coordinates.
Arguments Polygon {num} coordinates.
Arguments MultiPolygon {num} coordinates.

Definition isPolygon {num} (g : Geometry num) : bool :=
  match g with Polygon _ => true | _ => false end.

(** An object whose [type] is ['Feature']. *)
Record Feature (num : Type) := mkFeature {
  geometry : option (Geometry num);
  properties : option Properties;
}.
Arguments mkFeature {num} geometry properties.
Arguments geometry {num} f.
Arguments properties {num} f.

(** A parsed GeoJSON document, by its top-level [type] member.  A
    FeatureCollection has its [features] array and a Feature has none, as
    GeoJSON has them; a document of another type ([OtherType]: a bare
    geometry and the like) or without a truthy [type] ([NoType]) may carry
    a [features] array or not. *)
Inductive GeoJSON (num : Type) : Type :=
| FeatureCollection (features : list (Feature num))
| SingleFeature (feature : Feature num)
| OtherType (type : string) (features : option (list (Feature num)))
| NoType (features : option (list (Feature num))).
Arguments FeatureCollection {num} features.
Arguments SingleFeature {num} feature.
Arguments OtherType {num} type features.
Arguments NoType {num} features.

End geojson.

(** ** GeoJSON interchange *)

Section Interchange.
Context {num : Type}.

(** [coord => [coord[1], coord[0]]] *)
Definition swap (coord : num * num) : num * num := (coord.2, coord.1).

Definition aoiToGeoJSON (aoi : AOI num) : geojson.Feature num :=
  geojson.mkFeature
    (Some (geojson.Polygon [map swap (bounds aoi)]))
    (Some (geojson.mkProperties
             (Some (id aoi))
             (Some (name aoi))
             (Some (mgrsCoordinate aoi))
             (Some (dimensions aoi))
             (Some (dateCreated aoi)))).

(** [feature.properties?.member] *)
Definition property (member : geojson.Properties -> option string)
           (feature : geojson.Feature num) : option string :=
  geojson.properties feature ≫= member.

(** [uuid] is what [randomUUID()] returns and [now] what
    [new Date().toISOString()] returns, should the call evaluate them. *)
Definition geoJSONToAOI (uuid now : string) (feature : geojson.Feature num)
  : outcome (AOI num) :=
  match geojson.geometry feature with
  | None => Throw "TypeError: Cannot read properties of null (reading 'type')"
  | Some (geojson.Polygon coordinates) =>
      match coordinates with
      | [] => Throw "TypeError: Cannot read properties of undefined (reading 'map')"
      | ring :: _ =>
          Return (mkAOI
            (orDefault (property geojson.id feature) uuid)
            (orDefault (property geojson.mgrsCoordinate feature) "")
            (orDefault (property geojson.dimensions feature) "")
            (map swap ring)
            (orDefault (property geojson.name feature) "Imported AOI")
            (orDefault (property geojson.dateCreated feature) now)
            None)
      end
  | Some _ => Throw "Only Polygon geometries are supported"
  end.

End Interchange.

(** ** Persistence *)

Definition STORAGE_KEY : string := "mgrs-map-aois".
Definition PROJECT_NAME_KEY : string := "mgrs-map-project-name".

(** The browser's [localStorage]: its entries, and whether the browser lets
    the page read and write it (a refused access throws). *)
Record Storage := mkStorage {
  accessible : bool;
  items : gmap string string;
}.

Definition getItem (localStorage : Storage) (key : string)
  : outcome (option string) :=
  if accessible localStorage
  then Return (items localStorage !! key)
  else Throw "SecurityError".

Definition setItem (localStorage : Storage) (key value : string)
  : outcome Storage :=
  if accessible localStorage
  then Return (mkStorage true (<[key := value]> (items localStorage)))
  else Throw "SecurityError".

Section Persistence.
Context {num : Type}.
(** [JSON.stringify] and [JSON.parse] at the type of the stored array. *)
Variable JSON_stringify : list (AOI num) -> string.
Variable JSON_parse : string -> outcome (list (AOI num)).

(** [storage.save]; [window] is [None] where [typeof window] is
    ['undefined'].  The result is the storage after the call. *)
Definition save (window : option Storage) (data : list (AOI num))
  : outcome (option Storage) :=
  match window with
  | Some localStorage =>
      try_catch
        (let aoisToSave := map withoutLayer data in
         stored ← setItem localStorage STORAGE_KEY (JSON_stringify aoisToSave);
         Return (Some stored))
        (fun error => Return (Some localStorage))
  | None => Return None
  end.

(** [storage.load] *)
Definition load (window : option Storage) : outcome (list (AOI num)) :=
  match window with
  | Some localStorage =>
      try_catch
        (data ← getItem localStorage STORAGE_KEY;
         match data with
         | Some text => if truthy text then JSON_parse text else Return []
         | None => Return []
         end)
        (fun error => Return [])
  | None => Return []
  end.

End Persistence.

(** ** Component state *)

(** The [useState] cells of [Map] and [MapContent] that the handlers below
    read or write, and the messages shown with [alert]. *)
Record State (num : Type) := mkState {
  aois : list (AOI num);
  mgrsInput : string;
  editingId : option string;
  editingName : string;
  selectedAoiId : option string;
  isEditing : bool;
  editMode : bool;
  alerts : list string;
}.
Arguments mkState {num} aois mgrsInput editingId editingName selectedAoiId
  isEditing editMode alerts.
Arguments aois {num} s.
Arguments mgrsInput {num} s.
Arguments editingId {num} s.
Arguments editingName {num} s.
Arguments selectedAoiId {num} s.
Arguments isEditing {num} s.
Arguments editMode {num} s.
Arguments alerts {num} s.

Definition initialState {num} : State num :=
  mkState [] "" None "" None false false [].

Section Setters.
Context {num : Type}.
Implicit Type st : State num.

Definition setAois (v : list (AOI num)) st : State num :=
  mkState v (mgrsInput st) (editingId st) (editingName st)
          (selectedAoiId st) (isEditing st) (editMode st) (alerts st).
Definition setMgrsInput (v : string) st : State num :=
  mkState (aois st) v (editingId st) (editingName st)
          (selectedAoiId st) (isEditing st) (editMode st) (alerts st).
Definition setEditingId (v : option string) st : State num :=
  mkState (aois st) (mgrsInput st) v (editingName st)
          (selectedAoiId st) (isEditing st) (editMode st) (alerts st).
Definition setEditingName (v : string) st : State num :=
  mkState (aois st) (mgrsInput st) (editingId st) v
          (selectedAoiId st) (isEditing st) (editMode st) (alerts st).
Definition setSelectedAoiId (v : option string) st : State num :=
  mkState (aois st) (mgrsInput st) (editingId st) (editingName st)
          v (isEditing st) (editMode st) (alerts st).
Definition setIsEditing (v : bool) st : State num :=
  mkState (aois st) (mgrsInput st) (editingId st) (editingName st)
          (selectedAoiId st) v (editMode st) (alerts st).
Definition setEditMode (v : bool) st : State num :=
  mkState (aois st) (mgrsInput st) (editingId st) (editingName st)
          (selectedAoiId st) (isEditing st) v (alerts st).
Definition alert (message : string) st : State num :=
  mkState (aois st) (mgrsInput st) (editingId st) (editingName st)
          (selectedAoiId st) (isEditing st) (editMode st)
          (alerts st ++ [message]).

(** The AOIs drawn and listed as selected: those with
    [aoi.id === selectedAoiId]. *)
Definition selectedAois st : list (AOI num) :=
  filter (fun aoi => Some (id aoi) = selectedAoiId st) (aois st).

End Setters.

(** ** Event handlers *)

Section Handlers.
Context {num : Type} {number : JsNumber num}.
Implicit Type st : State num.

(** The [mgrs] package: [forward] and [toPoint] throw on input they
    cannot convert; [toPoint] answers [[longitude, latitude]]. *)
Variable forward : num -> num -> outcome string.
Variable toPoint : string -> outcome (num * num).
(** [calculatePolygonArea], called by [handleCreated]. *)
Variable calculatePolygonArea : list (LatLng num) -> num.
(** [x.toFixed(2)] *)
Variable toFixed2 : num -> string.
(** [JSON.parse] at the type of a GeoJSON document. *)
Variable JSON_parse : string -> outcome (geojson.GeoJSON num).

(** [`AOI ${aois.length + 1}`] *)
Definition defaultName st : string :=
  ("AOI " ++ toString (N.of_nat (List.length (aois st) + 1)))%string.

(** [latLngs.reduce((sum, latlng) => sum + f(latlng), 0) / latLngs.length] *)
Definition average (f : LatLng num -> num) (latLngs : list (LatLng num)) : num :=
  div (fold_left (fun sum latlng => add sum (f latlng)) latLngs zero)
      (ofNat (List.length latLngs)).

(** [handleCreated]: [latLngs] is [e.layer.getLatLngs()[0]] and [layer] is
    [e.layer]; [uuid] and [now] are the values [randomUUID()] and
    [new Date().toISOString()] return.  The handler has no [catch]: an
    exception of [mgrs.forward] leaves the state as it was.  The write
    [storage.save(updatedAois)] and the zoom act outside [State]. *)
Definition handleCreated (uuid now : string) (layer : Layer)
           (latLngs : list (LatLng num)) st : outcome (State num) :=
  mgrsCoords ← traverse (fun latlng => forward (lat latlng) (lng latlng)) latLngs;
  let centerLat := average lat latLngs in
  let centerLng := average lng latLngs in
  centerMgrs ← forward centerLat centerLng;
  let newAoi :=
    mkAOI uuid
          centerMgrs
          (toFixed2 (calculatePolygonArea latLngs) ++ " sq m")%string
          (map (fun latlng => (lng latlng, lat latlng)) latLngs)
          (defaultName st)
          now
          (Some layer) in
  let updatedAois := aois st ++ [newAoi] in
  Return (setAois updatedAois st).

(** [deleteAOI]; [confirmed] is the answer of [window.confirm]. *)
Definition deleteAOI (i : string) (confirmed : bool) st : State num :=
  if confirmed
  then setAois (filter (fun aoi => id aoi ≠ i) (aois st)) st
  else st.

(** The click handler of the "Delete All" button. *)
Definition deleteAll (confirmed : bool) st : State num :=
  if confirmed then setAois [] st else st.

(** [addAOI]; [nowMs] is the value of [Date.now()] and [now] that of
    [new Date().toISOString()]. *)
Definition addAOI (nowMs : N) (now : string) st : outcome (State num) :=
  if negb (truthy (mgrsInput st)) then Return st
  else
    try_catch
      ('(lng, lat) ← toPoint (mgrsInput st);
       let bounds :=
         [ (sub lat hundredth, sub lng hundredth);
           (sub lat hundredth, add lng hundredth);
           (add lat hundredth, add lng hundredth);
           (add lat hundredth, sub lng hundredth) ] in
       let newAOI :=
         mkAOI (toString nowMs)
               (mgrsInput st)
               ""
               bounds
               (defaultName st)
               now
               None in
       Return (setMgrsInput "" (setAois (aois st ++ [newAOI]) st)))
      (fun error => Return (alert "Invalid MGRS coordinate" st)).

Definition startEditing (aoi : AOI num) st : State num :=
  setEditingName (name aoi) (setEditingId (Some (id aoi)) st).

(** [saveEdit]: [!editingId] holds for [null] and for the empty string. *)
Definition saveEdit st : State num :=
  match editingId st with
  | None => st
  | Some editing =>
      if negb (truthy editing) then st
      else
        setEditingName ""
          (setEditingId None
             (setAois
                (map (fun aoi =>
                        if decide (id aoi = editing)
                        then withName aoi (orElse (trim (editingName st)) (name aoi))
                        else aoi)
                     (aois st))
                st))
  end.

(** [handleEdit] of [MapContent]: [layers] holds, for each layer of
    [e.layers], its [getLatLngs()[0]].  The handler puts these vertices
    under [bounds] as the widget hands them over; the embedding takes
    them at the element type that [AOI] declares for [bounds]. *)
Definition handleEdit (layers : list (list (num * num))) st : State num :=
  let edited :=
    fold_left
      (fun currentAois newBounds =>
         map (fun aoi =>
                if decide (Some (id aoi) = selectedAoiId st)
                then withBounds aoi newBounds
                else aoi)
             currentAois)
      layers (aois st) in
  setIsEditing false (setEditMode false (setAois edited st)).

Definition handleEditStop st : State num :=
  setIsEditing false (setEditMode false st).

(** *** Import *)

(** [features.map(geoJSONToAOI)], the calls numbered from [k]: call [k]
    draws [uuid k] from [randomUUID()] and [now k] from the clock. *)
Fixpoint convertFrom (k : nat) (uuid now : nat -> string)
         (features : list (geojson.Feature num)) : outcome (list (AOI num)) :=
  match features with
  | [] => Return []
  | feature :: rest =>
      aoi ← geoJSONToAOI (uuid k) (now k) feature;
      others ← convertFrom (S k) uuid now rest;
      Return (aoi :: others)
  end.

(** [geojson.features], read whatever the [type] of the document is;
    reading [.map] of a missing member throws. *)
Definition featuresMember (data : geojson.GeoJSON num)
  : outcome (list (geojson.Feature num)) :=
  match data with
  | geojson.FeatureCollection features => Return features
  | geojson.OtherType _ (Some features) => Return features
  | geojson.NoType (Some features) => Return features
  | _ => Throw "TypeError: Cannot read properties of undefined (reading 'map')"
  end.

(** [reader.onload] of [handleImport], which is also the handler of the
    "Import" button of [ImportModal]; [fileContent] is the text read. *)
Definition handleImport (fileContent : string) (uuid now : nat -> string) st
  : outcome (State num) :=
  try_catch
    (data ← JSON_parse fileContent;
     features ← featuresMember data;
     newAois ← convertFrom 0 uuid now features;
     Return (setAois (aois st ++ newAois) st))
    (fun error => Return (alert "Invalid GeoJSON file" st)).

(** [feature.geometry?.type === 'Polygon'] *)
Definition hasPolygon (feature : geojson.Feature num) : bool :=
  match geojson.geometry feature with
  | Some g => geojson.isPolygon g
  | None => false
  end.

(** [importGeoJSON]: [file] is [None] for a missing file, and otherwise
    what reading it gives.  [Return importedAois] stands for the call
    [setAois(importedAois)] followed by [resolve()], [Throw] for [reject]. *)
Definition importGeoJSON (file : option (outcome string))
           (uuid now : nat -> string) : outcome (list (AOI num)) :=
  match file with
  | None => Throw "No file provided"
  | Some (Throw _) => Throw "Error reading file"
  | Some (Return fileContent) =>
      geoJSONData ← JSON_parse fileContent;
      features ←
        match geoJSONData with
        | geojson.NoType _ => Throw "Invalid GeoJSON: Missing type property"
        | geojson.FeatureCollection features => Return features
        | geojson.SingleFeature feature => Return [feature]
        | geojson.OtherType _ _ => Return []
        end;
      if Nat.eqb (List.length features) 0
      then Throw "No valid features found in GeoJSON"
      else
        importedAois ← convertFrom 0 uuid now (List.filter hasPolygon features);
        if Nat.eqb (List.length importedAois) 0
        then Throw "No Polygon features found in GeoJSON"
        else Return importedAois
  end.

(** *** Selection *)

(** Click on a row of the panel. *)
Definition panelClick (aoi : AOI num) st : State num :=
  setSelectedAoiId
    (if decide (selectedAoiId st = Some (id aoi)) then None else Some (id aoi))
    st.

(** Click on a polygon of the map. *)
Definition polygonClick (aoi : AOI num) st : State num :=
  setSelectedAoiId (Some (id aoi)) st.

(** Context menu on a polygon of the map. *)
Definition polygonContextMenu (aoi : AOI num) st : State num :=
  if decide (Some (id aoi) = selectedAoiId st)
  then setIsEditing true (setEditMode true st)
  else setSelectedAoiId (Some (id aoi)) st.

(** Handed to [MapContent] as [onMapClick], which attaches it to nothing. *)
Definition handleMapClick st : State num :=
  if negb (isEditing st) then setSelectedAoiId None st else st.

(** [handleKeyPress], by the key pressed. *)
Definition handleKeyPress (key : string) st : State num :=
  if decide (key = "Enter") then saveEdit st
  else if decide (key = "Escape") then setEditingName "" (setEditingId None st)
  else st.

(** *** The component as a transition system *)

(** [JSON.parse] at the type of the array kept in [localStorage]. *)
Variable parseStored : string -> outcome (list (AOI num)).

(** The first [useEffect] of [Map]: adopt the stored AOIs, if any. *)
Definition mount (window : option Storage) st : State num :=
  match load parseStored window with
  | Return loadedAois =>
      if Nat.ltb 0 (List.length loadedAois) then setAois loadedAois st else st
  | Throw _ => st
  end.

(** What the user and the widgets can do.  An event on the row or the
    polygon of an AOI names the AOI by its position in [aois]; the values
    the handler draws from the environment come with the event. *)
Inductive Event : Type :=
| Mounted (window : option Storage)
| DrawCreated (uuid now : string) (layer : Layer) (latLngs : list (LatLng num))
| DrawEdited (layers : list (list (num * num)))
| DrawEditStop
| MgrsInputChanged (value : string)
| AddClicked (nowMs : N) (now : string)
| DeleteClicked (row : nat) (confirmed : bool)
| DeleteAllClicked (confirmed : bool)
| NameClicked (row : nat)
| NameChanged (value : string)
| NameBlurred
| NameKeyDown (key : string)
| RowClicked (row : nat)
| PolygonClicked (row : nat)
| PolygonContextMenu (row : nat)
| ImportClicked (fileContent : string) (uuid now : nat -> string).

(** An exception that leaves a handler leaves the state as it was. *)
Definition settle (result : outcome (State num)) st : State num :=
  match result with
  | Return st' => st'
  | Throw _ => st
  end.

Definition onRow (row : nat) (handler : AOI num -> State num -> State num) st
  : State num :=
  match aois st !! row with
  | Some aoi => handler aoi st
  | None => st
  end.

Definition step st (e : Event) : State num :=
  match e with
  | Mounted window => mount window st
  | DrawCreated uuid now layer latLngs =>
      settle (handleCreated uuid now layer latLngs st) st
  | DrawEdited layers => handleEdit layers st
  | DrawEditStop => handleEditStop st
  | MgrsInputChanged value => setMgrsInput value st
  | AddClicked nowMs now => settle (addAOI nowMs now st) st
  | DeleteClicked row confirmed =>
      onRow row (fun aoi => deleteAOI (id aoi) confirmed) st
  | DeleteAllClicked confirmed => deleteAll confirmed st
  | NameClicked row => onRow row startEditing st
  | NameChanged value => setEditingName value st
  | NameBlurred => saveEdit st
  | NameKeyDown key => handleKeyPress key st
  | RowClicked row => onRow row panelClick st
  | PolygonClicked row => onRow row polygonClick st
  | PolygonContextMenu row => onRow row polygonContextMenu st
  | ImportClicked fileContent uuid now =>
      settle (handleImport fileContent uuid now st) st
  end.

Definition run (events : list Event) st : State num :=
  fold_left step events st.

(** The states the component can be in. *)
Definition reachable st : Prop :=
  exists events, run events initialState = st.

End Handlers.

(** ** Export *)

Definition inRange (low high : nat) (c : ascii) : bool :=
  Nat.leb low (nat_of_ascii c) && Nat.leb (nat_of_ascii c) high.

(** The code units that [/[^a-z0-9]/gi] leaves alone: the digits and the
    letters of either case. *)
Definition isAlphanumeric (c : ascii) : bool :=
  inRange 48 57 c || inRange 65 90 c || inRange 97 122 c.

(** [String.prototype.toLowerCase] on a code unit below 256. *)
Definition toLowerCaseUnit (c : ascii) : ascii :=
  if inRange 65 90 c || inRange 192 214 c || inRange 216 222 c
  then ascii_of_nat (nat_of_ascii c + 32)
  else c.

Fixpoint mapUnits (f : ascii -> ascii) (s : string) : string :=
  match s with
  | EmptyString => EmptyString
  | String c rest => String (f c) (mapUnits f rest)
  end.

Definition toLowerCase (s : string) : string := mapUnits toLowerCaseUnit s.

(** [s.replace(/[^a-z0-9]/gi, '_')] *)
Definition replaceNonAlphanumeric (s : string) : string :=
  mapUnits (fun c => if isAlphanumeric c then c else "_"%char) s.

(** [currentDate.split('T')[0]] *)
Fixpoint beforeFirstT (s : string) : string :=
  match s with
  | EmptyString => EmptyString
  | String c rest =>
      if Ascii.eqb c "T" then EmptyString else String c (beforeFirstT rest)
  end.

(** [sanitizedProjectName] and [exportName] of [exportToGeoJSON]. *)
Definition sanitizedProjectName (projectName : string) : string :=
  toLowerCase (replaceNonAlphanumeric projectName).

Definition exportName (projectName currentDate : string) : string :=
  (sanitizedProjectName projectName ++ "_aois_"
   ++ beforeFirstT currentDate ++ ".geojson")%string.

(** What [exportToGeoJSON] hands to the browser: the object it serializes
    (a FeatureCollection with top-level [properties]) and the name of the
    download. *)
Record Export (num : Type) := mkExport {
  exportedProjectName : string;
  exportDate : string;
  exportedFeatures : list (geojson.Feature num);
  download : string;
}.
Arguments mkExport {num} exportedProjectName exportDate exportedFeatures download.
Arguments exportedProjectName {num} e.
Arguments exportDate {num} e.
Arguments exportedFeatures {num} e.
Arguments download {num} e.

(** [exportToGeoJSON]; [now] and [currentDate] are the two readings of
    [new Date().toISOString()]. *)
Definition exportToGeoJSON {num} (projectName now currentDate : string)
           (st : State num) : Export num :=
  let features := map aoiToGeoJSON (aois st) in
  mkExport projectName now features (exportName projectName currentDate).

(** The exported object as a GeoJSON document. *)
Definition exportedDocument {num} (e : Export num) : geojson.GeoJSON num :=
  geojson.FeatureCollection (exportedFeatures e).

(** ** Project name *)

(** The [useState] cells of [Map] that hold the project name. *)
Record Project := mkProject {
  projectName : string;
  editingProject : bool;
  tempProjectName : string;
}.

Definition initialProject : Project :=
  mkProject "Untitled Project" false "".

Definition startEditingProject (p : Project) : Project :=
  mkProject (projectName p) true (projectName p).

Definition handleProjectNameChange (p : Project) : Project :=
  let trimmedName := trim (tempProjectName p) in
  mkProject (if truthy trimmedName then trimmedName else projectName p)
            false
            (tempProjectName p).

Definition handleProjectKeyPress (key : string) (p : Project) : Project :=
  if decide (key = "Enter") then handleProjectNameChange p
  else if decide (key = "Escape")
       then mkProject (projectName p) false (projectName p)
       else p.

(** The part of the first [useEffect] of [Map] that reads the project name:
    [saved] is [localStorage.getItem(PROJECT_NAME_KEY)]. *)
Definition adoptProjectName (saved : option string) (p : Project) : Project :=
  match saved with
  | Some savedProjectName =>
      if truthy savedProjectName
      then mkProject savedProjectName (editingProject p) (tempProjectName p)
      else p
  | None => p
  end.

(** The third [useEffect] of [Map]:
    [localStorage.setItem(PROJECT_NAME_KEY, projectName)]. *)
Definition persistProjectName (localStorage : Storage) (p : Project)
  : outcome Storage :=
  setItem localStorage PROJECT_NAME_KEY (projectName p).

Inductive ProjectEvent : Type :=
| ProjectLoaded (saved : option string)
| ProjectEditClicked
| ProjectNameTyped (value : string)
| ProjectNameBlurred
| ProjectKeyDown (key : string).

Definition projectStep (p : Project) (e : ProjectEvent) : Project :=
  match e with
  | ProjectLoaded saved => adoptProjectName saved p
  | ProjectEditClicked => startEditingProject p
  | ProjectNameTyped value =>
      mkProject (projectName p) (editingProject p) value
  | ProjectNameBlurred => handleProjectNameChange p
  | ProjectKeyDown key => handleProjectKeyPress key p
  end.

Definition projectRun (events : list ProjectEvent) (p : Project) : Project :=
  fold_left projectStep events p.

(** ** Centre and extent *)

(** [getAverageLatLng] *)
Definition getAverageLatLng {num} {number : JsNumber num}
           (coords : list (LatLng num)) : num * num :=
  let sum :=
    fold_left (fun acc curr => (add acc.1 (lat curr), add acc.2 (lng curr)))
              coords (zero, zero) in
  (div sum.1 (ofNat (List.length coords)),
   div sum.2 (ofNat (List.length coords))).

(** A result of [Math.min] or [Math.max] on rationals. *)
Inductive Extent : Type :=
| Finite (q : Q)
| Infinity
| NegativeInfinity.

(** [Math.min(...xs)]: [Infinity] for no argument. *)
Fixpoint Math_min (xs : list Q) : Extent :=
  match xs with
  | [] => Infinity
  | x :: rest =>
      match Math_min rest with
      | Finite m => Finite (if Qle_bool x m then x else m)
      | _ => Finite x
      end
  end.

(** [Math.max(...xs)]: [-Infinity] for no argument. *)
Fixpoint Math_max (xs : list Q) : Extent :=
  match xs with
  | [] => NegativeInfinity
  | x :: rest =>
      match Math_max rest with
      | Finite m => Finite (if Qle_bool m x then x else m)
      | _ => Finite x
      end
  end.

(** The click handler of the "Zoom to All AOIs" button: the two corners it
    passes to [zoomToBounds], or [None] when it does nothing. *)
Definition zoomToAll (st : State Q) : option ((Extent * Extent) * (Extent * Extent)) :=
  if Nat.ltb 0 (List.length (aois st)) then
    let bounds := flat_map (fun aoi => bounds aoi) (aois st) in
    let minLat := Math_min (map (fun b => b.1) bounds) in
    let maxLat := Math_max (map (fun b => b.1) bounds) in
    let minLng := Math_min (map (fun b => b.2) bounds) in
    let maxLng := Math_max (map (fun b => b.2) bounds) in
    Some ((minLat, minLng), (maxLat, maxLng))
  else None.

(** ** Notions used to state the properties *)

(** Ids of the collection, in display order. *)
Definition ids {num} (st : State num) : list string := map id (aois st).

(** The arithmetic mean: the sum of the values over their number. *)
Definition arithmeticMean (xs : list R) : R :=
  (foldr Rplus 0 xs / INR (List.length xs))%R.

(** [x] is nearer to [p] than to any other power of ten. *)
Definition onTheOrderOf (p x : R) : Prop :=
  (p / sqrt 10 <= x < p * sqrt 10)%R.

(** Modelled from the spec: the term of the shoelace formula for the edge
    from [p] to [q]. *)
Definition cross (p q : R * R) : R := (p.1 * q.2 - q.1 * p.2)%R.

(** Modelled from the spec: the shoelace sum over the edges of [points],
    the last point joined to [first]. *)
Fixpoint shoelaceFrom (first : R * R) (points : list (R * R)) : R :=
  match points with
  | [] => 0%R
  | p :: rest =>
      match rest with
      | [] => cross p first
      | q :: _ => (cross p q + shoelaceFrom first rest)%R
      end
  end.

(** Modelled from the spec: the shoelace sum of a closed polygon, twice
    its signed area. *)
Definition shoelace (points : list (R * R)) : R :=
  match points with
  | [] => 0%R
  | first :: _ => shoelaceFrom first points
  end.

(** Modelled from the spec: [calculatePolygonArea], which [handleCreated]
    calls and no source file defines.  Section 4.2 of the specification
    describes it as [planarArea]: the shoelace formula on the vertices
    taken as planar after a meters-per-degree scale correction at the mean
    latitude of the polygon, in absolute value.  The specification names no
    constant: [metersPerDegree] is the length of one degree of latitude, and
    one degree of longitude is that length times the cosine of the mean
    latitude. *)
Definition planarArea (metersPerDegree : R) (vertices : list (LatLng R)) : R :=
  let meanLat := arithmeticMean (map lat vertices) in
  let shrink := cos (meanLat * PI / 180) in
  let points :=
    map (fun v => ((lng v * (metersPerDegree * shrink))%R,
                   (lat v * metersPerDegree)%R))
        vertices in
  Rabs (shoelace points / 2).

(** The rectangle of the specification's scenario, as (lat, lng) vertices. *)
Definition rectangle {num} (n : Z -> num) : list (LatLng num) :=
  [ mkLatLng (n 45) (n (-100));
    mkLatLng (n 45) (n (-99));
    mkLatLng (n 46) (n (-99));
    mkLatLng (n 46) (n (-100)) ]%Z.

(** The ring of the specification's import scenario, longitude first. *)
Definition scenarioRing : list (geojson.Position Q) :=
  [ (-99, 45); (-99, 46); (-98, 46); (-98, 45); (-99, 45) ]%Q.

Definition scenarioCollection : geojson.GeoJSON Q :=
  geojson.FeatureCollection
    [ geojson.mkFeature (Some (geojson.Polygon [scenarioRing])) None;
      geojson.mkFeature (Some (geojson.Point (-99, 45)%Q)) None ].

(** A triangle whose id, name and date are empty strings. *)
Definition blankAoi : AOI Q :=
  mkAOI "" "14TMQ8096339012" "1.00 sq m"
        [ (45, -100); (45, -99); (46, -99) ]%Q "" "" None.

(** A triangle whose id is the empty string. *)
Definition harbourAoi : AOI Q :=
  mkAOI "" "14TMQ8096339012" "1.00 sq m"
        [ (45, -100); (45, -99); (46, -99) ]%Q "Harbour"
        "2024-06-01T00:00:00.000Z" None.

(** A stored collection made of that AOI. *)
Definition harbourStorage : Storage :=
  mkStorage true {[ STORAGE_KEY := "[harbour]" ]}.

(** A Polygon feature whose id, name and date are empty strings. *)
Definition blankFeature : geojson.Feature Q :=
  geojson.mkFeature
    (Some (geojson.Polygon [scenarioRing]))
    (Some (geojson.mkProperties (Some "") (Some "") None None (Some ""))).

(** A triangle with every field filled. *)
Definition filledAoi : AOI Q :=
  mkAOI "a1" "14TMQ8096339012" "1.00 sq m"
        [ (45, -100); (45, -99); (46, -99) ]%Q "North field"
        "2024-06-01T00:00:00.000Z" (Some 7).

(** The Polygon feature of the scenario alone. *)
Definition polygonCollection : geojson.GeoJSON Q :=
  geojson.FeatureCollection
    [ geojson.mkFeature (Some (geojson.Polygon [scenarioRing])) None ].

(** What exporting [filledAoi] alone writes. *)
Definition exportedCollection : geojson.GeoJSON Q :=
  geojson.FeatureCollection [aoiToGeoJSON filledAoi].

(** Stand-ins for the libraries, to run the handlers on examples; the
    properties below hold for whatever the libraries compute. *)
Module Sample.

Definition forward {num} (lat lng : num) : outcome string :=
  Return "14TMQ8096339012".
Definition toPoint (mgrs : string) : outcome (Q * Q) :=
  if decide (mgrs = "") then Throw "MGRSPoint converting from ''"
  else Return ((-93)%Q, 45%Q).
Definition calculatePolygonArea {num} {number : JsNumber num}
           (latLngs : list (LatLng num)) : num := zero.
Definition toFixed2 {num} (x : num) : string := "0.00".
Definition parseCollection (fileContent : string)
  : outcome (geojson.GeoJSON Q) :=
  if decide (fileContent = "scenario") then Return scenarioCollection
  else if decide (fileContent = "export") then Return exportedCollection
  else if decide (fileContent = "polygon") then Return polygonCollection
  else Throw "SyntaxError".
Definition parseStored (text : string) : outcome (list (AOI Q)) :=
  if decide (text = "[harbour]") then Return [harbourAoi]
  else Throw "SyntaxError".
Definition uuid (k : nat) : string :=
  ("00000000-0000-4000-8000-00000000000" ++ toString (N.of_nat k))%string.
Definition now (k : nat) : string := "2024-06-01T00:00:00.000Z".

Definition step : State Q -> Event -> State Q :=
  step forward toPoint calculatePolygonArea toFixed2
                 parseCollection parseStored.
Definition run : list Event -> State Q -> State Q :=
  run forward toPoint calculatePolygonArea toFixed2
                parseCollection parseStored.

End Sample.

(** A property that is present but falsy, read as a missing one. *)
Definition dropFalsy (v : option string) : option string :=
  match v with
  | Some s => if truthy s then Some s else None
  | None => None
  end.

Definition withoutFalsy {num} (feature : geojson.Feature num)
  : geojson.Feature num :=
  geojson.mkFeature
    (geojson.geometry feature)
    (p ← geojson.properties feature;
     Some (geojson.mkProperties
             (dropFalsy (geojson.id p))
             (dropFalsy (geojson.name p))
             (dropFalsy (geojson.mgrsCoordinate p))
             (dropFalsy (geojson.dimensions p))
             (dropFalsy (geojson.dateCreated p)))).

(** The name "  Ridge  " typed for the AOI with id "a1". *)
Definition renamingState : State Q :=
  mkState [filledAoi; blankAoi] "" (Some "a1") "  Ridge  " None false false [].

(** The AOI with id "a1" selected and under boundary edit. *)
Definition editingState : State Q :=
  mkState [filledAoi; blankAoi] "" None "" (Some "a1") true true [].

(** A stand-in for [JSON.stringify] that [Sample.parseStored] reads back
    for the collection made of [harbourAoi]. *)
Definition harbourStringify (data : list (AOI Q)) : string := "[harbour]".

(** A storage that holds a project name and no AOIs. *)
Definition namedStorage : Storage :=
  mkStorage true {[ PROJECT_NAME_KEY := "Survey" ]}.


(** A feature that [geoJSONToAOI] converts: a Polygon with a first ring. *)
Definition importable {num} (feature : geojson.Feature num) : Prop :=
  exists ring rest,
    geojson.geometry feature = Some (geojson.Polygon (ring :: rest)).

(** A stand-in for [JSON.parse] on a file that holds the Polygon feature
    of the scenario in a [features] array and no [type] member. *)
Definition parseUntyped (fileContent : string)
  : outcome (geojson.GeoJSON Q) :=
  Return (geojson.NoType
            (Some [ geojson.mkFeature (Some (geojson.Polygon [scenarioRing])) None ])).

(** A stand-in for [JSON.parse] on a file that holds a FeatureCollection
    without features. *)
Definition parseEmptyCollection (fileContent : string)
  : outcome (geojson.GeoJSON Q) :=
  Return (geojson.FeatureCollection []).

(** The AOI with id "a1" selected, no edit under way. *)
Definition selectedState : State Q :=
  mkState [filledAoi; blankAoi] "" None "" (Some "a1") false false [].

(** The event brings no id that the collection already holds: a draw
    gesture or a manual entry whose id is new.  An import and a reload
    bring whatever ids the file or the storage holds. *)
Definition bringsNoKnownId {num} (st : State num) (e : @Event num) : Prop :=
  match e with
  | DrawCreated uuid _ _ _ => uuid ∉ ids st
  | AddClicked nowMs _ => toString nowMs ∉ ids st
  | ImportClicked _ _ _ => False
  | Mounted _ => False
  | _ => True
  end.

(** The text "15TVK1234567890" typed in the manual entry, one AOI being
    there already. *)
Definition typedState : State Q :=
  mkState [filledAoi] "15TVK1234567890" None "" None false false [].

(** Text typed in the manual entry that is no MGRS reference. *)
Definition mistypedState : State Q :=
  mkState [filledAoi] "not a grid reference" None "" None false false [].

(** A stand-in for [mgrs.toPoint] that accepts one reference only. *)
Definition strictToPoint (mgrs : string) : outcome (Q * Q) :=
  if decide (mgrs = "15TVK1234567890") then Return ((-93)%Q, 45%Q)
  else Throw "MGRSPoint bad conversion".

(** Every code unit of [s] satisfies [p]. *)
Fixpoint allUnits (p : ascii -> bool) (s : string) : bool :=
  match s with
  | EmptyString => true
  | String c rest => p c && allUnits p rest
  end.

(** A lower-case letter, a digit or the underscore. *)
Definition isFileSafe (c : ascii) : bool :=
  inRange 48 57 c || inRange 97 122 c || Ascii.eqb c "_".

Definition isNotT (c : ascii) : bool := negb (Ascii.eqb c "T").

(** Every field that [geoJSONToAOI] would replace is filled. *)
Definition filled {num} (aoi : AOI num) : Prop :=
  id aoi <> "" /\ name aoi <> "" /\ dateCreated aoi <> "".

(** A stand-in for [JSON.parse] on the file that exporting
    [selectedState] writes. *)
Definition parseOwnExport (fileContent : string)
  : outcome (geojson.GeoJSON Q) :=
  Return (exportedDocument
            (exportToGeoJSON "Test Zone #1" "2024-06-01T10:20:30.000Z"
                             "2024-06-01T10:20:30.001Z"
                             (setAois [filledAoi] selectedState))).

(** The project name "  Test Zone #1  " being typed. *)
Definition typingProject : Project :=
  mkProject "Untitled Project" true "  Test Zone #1  ".

(** An AOI imported from a Polygon whose first ring is empty. *)
Definition hollowAoi : AOI Q :=
  mkAOI "h1" "" "" [] "Imported AOI" "2024-06-01T00:00:00.000Z" None.

(** * Properties *)

(** ** Exceptions *)

Lemma traverse_returns {A B} (f : A -> outcome B) (xs : list A) :
  Forall (fun x => returns (f x) = true) xs ->
  exists ys, traverse f xs = Return ys.
Proof.
  induction 1 as [|x rest Hone Hrest [converted IH]]; simpl.
  - by eexists.
  - destruct (f x); [|done]. rewrite IH; simpl. by eexists.
Qed.

(** ** GeoJSON interchange *)

Section InterchangeFacts.
Context {num : Type}.
Implicit Types (aoi : AOI num) (feature : geojson.Feature num).

Lemma swap_swap (coord : num * num) : swap (swap coord) = coord.
Proof. by destruct coord. Qed.

Lemma map_swap_swap (ring : list (num * num)) : map swap (map swap ring) = ring.
Proof.
    induction ring as [|coord ring IH]; simpl; [done|].
    by rewrite swap_swap, IH.
Qed.

Lemma orElse_truthy (a b : string) : a <> "" -> orElse a b = a.
Proof. by destruct a. Qed.

Lemma orElse_empty (a : string) : orElse a "" = a.
Proof. by destruct a. Qed.

Lemma orDefault_dropFalsy (v : option string) (b : string) :
    orDefault (dropFalsy v) b = orDefault v b.
Proof. by destruct v as [[|c s]|]. Qed.

  (** What an imported AOI looks like, whenever the conversion returns. *)
Lemma geoJSONToAOI_Return uuid now feature r :
    geoJSONToAOI uuid now feature = Return r ->
    exists ring rest,
      geojson.geometry feature = Some (geojson.Polygon (ring :: rest)) /\
      r = mkAOI (orDefault (property geojson.id feature) uuid)
                (orDefault (property geojson.mgrsCoordinate feature) "")
                (orDefault (property geojson.dimensions feature) "")
                (map swap ring)
                (orDefault (property geojson.name feature) "Imported AOI")
                (orDefault (property geojson.dateCreated feature) now)
                None.
Proof.
    unfold geoJSONToAOI.
    destruct (geojson.geometry feature) as [[| | | |[|ring rest]|]|]; try done.
    intros [= <-]. by exists ring, rest.
Qed.

Lemma geoJSONToAOI_polygon uuid now feature :
    hasPolygon feature = true ->
    (exists r, geoJSONToAOI uuid now feature = Return r) \/
    geojson.geometry feature = Some (geojson.Polygon []).
Proof.
    unfold hasPolygon, geoJSONToAOI.
    destruct (geojson.geometry feature) as [[| | | |[|ring rest]|]|]; try done.
    - by right.
    - left. by eexists.
Qed.

End InterchangeFacts.

(** C2, as amended.  For every AOI whose [id], [name] and [dateCreated] are
    not the empty string, [aoiToGeoJSON] followed by [geoJSONToAOI] gives
    back the AOI (without its [layer] handle): the same vertex sequence in
    [bounds], the two coordinate swaps cancelling, and the same [id],
    [name], [mgrsCoordinate], [dimensions] and [dateCreated].  A feature
    that carries a non-empty [id] keeps it, so a fresh id is assigned only
    to a feature whose [id] is missing or empty.  (The vertex count plays
    no part.) *)
Theorem C2_roundtrip_of_filled_aoi {num} (aoi : AOI num) (uuid now : string) :
  id aoi <> "" -> name aoi <> "" -> dateCreated aoi <> "" ->
  geoJSONToAOI uuid now (aoiToGeoJSON aoi) = Return (withoutLayer aoi) /\
  (forall (feature : geojson.Feature num) r s,
      geoJSONToAOI uuid now feature = Return r ->
      property geojson.id feature = Some s -> s <> "" -> id r = s).
Proof.
  intros Hid Hname Hdate. split.
  - unfold geoJSONToAOI, aoiToGeoJSON, withoutLayer, property; simpl.
    by rewrite map_swap_swap, !orElse_empty, !orElse_truthy.
  - intros feature r s Hr Hs Hne.
    apply geoJSONToAOI_Return in Hr as (ring & rest & _ & ->); simpl.
    rewrite Hs; simpl. by apply orElse_truthy.
Qed.

Lemma C2_roundtrip_of_filled_aoi_witness :
  (id filledAoi <> "" /\ name filledAoi <> "" /\ dateCreated filledAoi <> "") /\
  geoJSONToAOI (Sample.uuid 0) (Sample.now 0) (aoiToGeoJSON filledAoi)
  = Return (withoutLayer filledAoi).
Proof.
  split; [by repeat split|].
  apply (C2_roundtrip_of_filled_aoi filledAoi (Sample.uuid 0) (Sample.now 0));
    simpl; discriminate.
Defined.

(** C2 as stated fails: an AOI with three vertices and an empty [id], [name]
    and [dateCreated] comes back with a generated id, the name
    "Imported AOI" and the time of the import. *)
Lemma C2_roundtrip_changes_blank_aoi :
  3 <= List.length (bounds blankAoi) /\
  geoJSONToAOI "00000000-0000-4000-8000-000000000000" "2024-06-02T00:00:00.000Z"
               (aoiToGeoJSON blankAoi)
  = Return (mkAOI "00000000-0000-4000-8000-000000000000"
                  (mgrsCoordinate blankAoi) (dimensions blankAoi)
                  (bounds blankAoi) "Imported AOI"
                  "2024-06-02T00:00:00.000Z" None) /\
  geoJSONToAOI "00000000-0000-4000-8000-000000000000" "2024-06-02T00:00:00.000Z"
               (aoiToGeoJSON blankAoi)
  <> Return (withoutLayer blankAoi).
Proof.
  split; [simpl; lia|]. split; [reflexivity|]. discriminate.
Qed.

(** C10.  [geoJSONToAOI] reads a falsy property as a missing one: the
    conversion of a feature equals that of the feature with its empty-string
    properties removed.  In particular an empty [properties.id] gives way to
    the generated id, an empty [name] to "Imported AOI" and an empty
    [dateCreated] to the current time. *)
Theorem C10_falsy_property_is_missing {num}
        (uuid now : string) (feature : geojson.Feature num) (r : AOI num) :
  geoJSONToAOI uuid now feature = Return r ->
  geoJSONToAOI uuid now (withoutFalsy feature) = Return r /\
  (property geojson.id feature = Some "" -> id r = uuid) /\
  (property geojson.name feature = Some "" -> name r = "Imported AOI") /\
  (property geojson.dateCreated feature = Some "" -> dateCreated r = now).
Proof.
  intros Hr. split.
  - rewrite <- Hr. unfold geoJSONToAOI, withoutFalsy, property; simpl.
    destruct (geojson.geometry feature) as [[| | | |[|ring rest]|]|]; try done.
    destruct (geojson.properties feature) as [p|]; simpl; [|done].
    by rewrite !orDefault_dropFalsy.
  - apply geoJSONToAOI_Return in Hr as (ring & rest & _ & ->); simpl.
    by repeat split; intros ->.
Qed.

Lemma C10_falsy_property_is_missing_witness :
  exists r,
    geoJSONToAOI (Sample.uuid 0) (Sample.now 0) blankFeature = Return r /\
    geoJSONToAOI (Sample.uuid 0) (Sample.now 0) (withoutFalsy blankFeature)
    = Return r /\
    id r = Sample.uuid 0 /\ name r = "Imported AOI" /\
    dateCreated r = Sample.now 0.
Proof.
  eexists. split; [reflexivity|].
  destruct (C10_falsy_property_is_missing (Sample.uuid 0) (Sample.now 0)
              blankFeature _ eq_refl) as (Hsame & Hid & Hname & Hdate).
  split_and!; [exact Hsame|by apply Hid|by apply Hname|by apply Hdate].
Defined.

(** ** Persistence *)

(** C9.  [storage.load] always returns, and what it returns is the empty
    array when the key is absent and when [JSON.parse] throws on the stored
    text: malformed stored data never reaches the caller as an exception. *)
Theorem C9_load_returns_empty_on_bad_data {num}
        (JSON_parse : string -> outcome (list (AOI num))) :
  (forall window, exists stored, load JSON_parse window = Return stored) /\
  (forall localStorage,
      items localStorage !! STORAGE_KEY = None ->
      load JSON_parse (Some localStorage) = Return []) /\
  (forall localStorage text error,
      items localStorage !! STORAGE_KEY = Some text ->
      JSON_parse text = Throw error ->
      load JSON_parse (Some localStorage) = Return []).
Proof.
  unfold load, getItem. repeat split.
  - intros [[[] entries]|]; simpl; eauto.
    destruct (entries !! STORAGE_KEY) as [text|]; simpl; eauto.
    destruct (truthy text); simpl; eauto.
    destruct (JSON_parse text); simpl; eauto.
  - intros [[] entries] Habsent; simpl in *; [|done].
    by rewrite Habsent.
  - intros [[] entries] text error Hstored Hparse; simpl in *; [|done].
    rewrite Hstored; simpl.
    destruct (truthy text); [|done]. by rewrite Hparse.
Qed.

Lemma C9_load_returns_empty_on_bad_data_witness :
  load Sample.parseStored (Some (mkStorage true ∅)) = Return [] /\
  load Sample.parseStored
       (Some (mkStorage true {[ STORAGE_KEY := "[{not json" ]})) = Return [].
Proof.
  split.
  - apply (proj1 (proj2 (C9_load_returns_empty_on_bad_data Sample.parseStored))).
    reflexivity.
  - apply (proj2 (proj2 (C9_load_returns_empty_on_bad_data Sample.parseStored))
             _ "[{not json" "SyntaxError").
    + vm_compute. reflexivity.
    + reflexivity.
Defined.

(** ** Rename and boundary edit *)

Section EditFacts.
Context {num : Type}.
Implicit Types (st : State num) (aoi : AOI num).

(** The AOI that [saveEdit] puts in place of [aoi]. *)
Lemma saveEdit_aois st editing :
  editingId st = Some editing -> editing <> "" ->
  aois (saveEdit st)
  = map (fun aoi =>
           if decide (id aoi = editing)
           then withName aoi (orElse (trim (editingName st)) (name aoi))
           else aoi)
        (aois st).
Proof.
  intros Hediting Hne. unfold saveEdit. rewrite Hediting.
  by destruct editing.
Qed.

Lemma orElse_spec (a b : string) :
  orElse a b = if decide (a = "") then b else a.
Proof. by destruct a. Qed.

(** Editing with several layers in turn amounts to editing with the last. *)
Lemma handleEdit_aois st layers :
  aois (handleEdit layers st)
  = map (fun aoi =>
           if decide (Some (id aoi) = selectedAoiId st)
           then match last layers with
                | Some newBounds => withBounds aoi newBounds
                | None => aoi
                end
           else aoi)
        (aois st).
Proof.
  unfold handleEdit; simpl. generalize (aois st) as current.
  induction layers as [|newBounds layers IH]; intros current; simpl.
  - rewrite <- (map_id current) at 1. apply map_ext. intros aoi. by case_decide.
  - rewrite IH, map_map. apply map_ext. intros aoi.
    destruct (decide (Some (id aoi) = selectedAoiId st)) as [Hsel|Hsel]; simpl.
    + rewrite decide_True by done.
      rewrite last_cons. by destruct (last layers).
    + by rewrite decide_False.
Qed.

End EditFacts.

(** C7, as amended.  For every non-empty AOI id under edit and every
    candidate name, [saveEdit] keeps the collection's length and order;
    an AOI with that id keeps its name when the candidate trims to the
    empty string and otherwise takes the trimmed candidate as its name,
    its other fields staying as they were; an AOI with another id is not
    modified. *)
Theorem C7_saveEdit_renames_only_the_edited_id {num}
        (st : State num) (editing : string) (row : nat) (aoi : AOI num) :
  editingId st = Some editing -> editing <> "" ->
  aois st !! row = Some aoi ->
  exists aoi',
    aois (saveEdit st) !! row = Some aoi' /\
    (id aoi <> editing -> aoi' = aoi) /\
    (id aoi = editing ->
     name aoi' = (if decide (trim (editingName st) = "")
                  then name aoi else trim (editingName st))) /\
    id aoi' = id aoi /\ mgrsCoordinate aoi' = mgrsCoordinate aoi /\
    dimensions aoi' = dimensions aoi /\ bounds aoi' = bounds aoi /\
    dateCreated aoi' = dateCreated aoi /\ layer aoi' = layer aoi.
Proof.
  intros Hediting Hne Hrow.
  rewrite (saveEdit_aois st editing Hediting Hne), list_lookup_fmap, Hrow; simpl.
  eexists; split; [reflexivity|].
  case_decide; simpl; rewrite ?orElse_spec; by repeat split.
Qed.

Lemma C7_saveEdit_renames_only_the_edited_id_witness :
  exists aoi',
    aois (saveEdit renamingState) !! 0 = Some aoi' /\
    (id filledAoi <> "a1" -> aoi' = filledAoi) /\
    (id filledAoi = "a1" ->
     name aoi' = (if decide (trim (editingName renamingState) = "")
                  then name filledAoi else trim (editingName renamingState))) /\
    id aoi' = id filledAoi /\ mgrsCoordinate aoi' = mgrsCoordinate filledAoi /\
    dimensions aoi' = dimensions filledAoi /\ bounds aoi' = bounds filledAoi /\
    dateCreated aoi' = dateCreated filledAoi /\ layer aoi' = layer filledAoi.
Proof.
  apply (C7_saveEdit_renames_only_the_edited_id renamingState "a1" 0 filledAoi).
  - reflexivity.
  - discriminate.
  - reflexivity.
Defined.

(** C7 as stated fails for the empty id.  The stored collection holds an
    AOI named "Harbour" whose id is the empty string; the user clicks its
    name, types "  Ridge  " and presses Enter.  [saveEdit] returns at once
    on the falsy [editingId]: the AOI keeps its name although the candidate
    trims to "Ridge". *)
Lemma C7_saveEdit_ignores_empty_id :
  trim "  Ridge  " = "Ridge" /\
  map (fun aoi => (id aoi, name aoi))
      (aois (Sample.run [ Mounted (Some harbourStorage);
                          NameClicked 0;
                          NameChanged "  Ridge  ";
                          NameKeyDown "Enter" ] initialState))
  = [("", "Harbour")].
Proof. by vm_compute. Qed.

(** C8, as amended.  A boundary edit replaces the [bounds] of every AOI
    whose id is the selected one with the new vertices and nothing else:
    [id], [name], [mgrsCoordinate], [dimensions] and [dateCreated] (and the
    layer handle) stay as they were, neither [mgrsCoordinate] nor
    [dimensions] being computed anew, and an AOI with another id is not
    modified.  With several edited layers the vertices of the last one are
    kept. *)
Theorem C8_handleEdit_replaces_only_bounds {num}
        (st : State num) (layers : list (list (num * num)))
        (row : nat) (aoi : AOI num) :
  aois st !! row = Some aoi ->
  exists aoi',
    aois (handleEdit layers st) !! row = Some aoi' /\
    id aoi' = id aoi /\ name aoi' = name aoi /\
    mgrsCoordinate aoi' = mgrsCoordinate aoi /\
    dimensions aoi' = dimensions aoi /\
    dateCreated aoi' = dateCreated aoi /\ layer aoi' = layer aoi /\
    (Some (id aoi) <> selectedAoiId st -> aoi' = aoi) /\
    (Some (id aoi) = selectedAoiId st ->
     forall newBounds, last layers = Some newBounds -> bounds aoi' = newBounds).
Proof.
  intros Hrow. rewrite handleEdit_aois, list_lookup_fmap, Hrow; simpl.
  eexists; split; [reflexivity|].
  case_decide; [|by repeat split].
  destruct (last layers) as [kept|]; simpl; repeat split; try done.
  by intros _ newBounds [= ->].
Qed.

Lemma C8_handleEdit_replaces_only_bounds_witness :
  exists aoi',
    aois (handleEdit [[(45, -100); (45, -98); (47, -98)]%Q] editingState) !! 0
    = Some aoi' /\
    bounds aoi' = [(45, -100); (45, -98); (47, -98)]%Q /\
    mgrsCoordinate aoi' = mgrsCoordinate filledAoi /\
    dimensions aoi' = dimensions filledAoi.
Proof.
  destruct (C8_handleEdit_replaces_only_bounds editingState
              [[(45, -100); (45, -98); (47, -98)]%Q] 0 filledAoi)
    as (aoi' & Hrow & _ & _ & Hmgrs & Hdim & _ & _ & _ & Hbounds).
  - reflexivity.
  - exists aoi'. repeat split; try done.
    apply Hbounds; reflexivity.
Defined.

(** C8 as stated fails: the edit reaches more than the selected AOI.  After
    the same export is imported twice the collection holds two AOIs with
    the id "a1"; the first is selected and its boundary edited, and the
    second, which the user never touched, gets the new vertices too. *)
Lemma C8_edit_rewrites_the_twin_of_the_selected_aoi :
  map (fun aoi => (id aoi, bounds aoi))
      (aois (Sample.run [ ImportClicked "export" Sample.uuid Sample.now;
                          ImportClicked "export" Sample.uuid Sample.now;
                          PolygonClicked 0;
                          PolygonContextMenu 0 ] initialState))
  = [ ("a1", [ (45, -100); (45, -99); (46, -99) ]%Q);
      ("a1", [ (45, -100); (45, -99); (46, -99) ]%Q) ] /\
  map (fun aoi => (id aoi, bounds aoi))
      (aois (Sample.run [ ImportClicked "export" Sample.uuid Sample.now;
                          ImportClicked "export" Sample.uuid Sample.now;
                          PolygonClicked 0;
                          PolygonContextMenu 0;
                          DrawEdited [[ (45, -100); (45, -98); (47, -98) ]%Q] ]
                        initialState))
  = [ ("a1", [ (45, -100); (45, -98); (47, -98) ]%Q);
      ("a1", [ (45, -100); (45, -98); (47, -98) ]%Q) ].
Proof. by vm_compute. Qed.

(** ** Import *)

Section ImportFacts.
Context {num : Type}.
Variable JSON_parse : string -> outcome (geojson.GeoJSON num).
Implicit Types (st : State num) (features : list (geojson.Feature num)).

(** [features.map(geoJSONToAOI)] throws as soon as one feature is not a
    polygon. *)
Lemma convertFrom_non_polygon k uuid now features :
  Exists (fun feature => hasPolygon feature = false) features ->
  exists error, convertFrom k uuid now features = Throw error.
Proof.
  intros Hex. revert k.
  induction Hex as [feature rest Hno|feature rest _ IH]; intros k; simpl.
  - unfold geoJSONToAOI, hasPolygon in *.
    destruct (geojson.geometry feature) as [[]|]; simpl in *; by eauto.
  - destruct (geoJSONToAOI _ _ feature); simpl; [|by eauto].
    destruct (IH (S k)) as [error ->]. by eauto.
Qed.

(** ... and, on polygons that have a ring, gives one AOI per feature. *)
Lemma convertFrom_polygons k uuid now features :
  Forall (fun feature => exists ring rest,
            geojson.geometry feature = Some (geojson.Polygon (ring :: rest)))
         features ->
  exists imported,
    convertFrom k uuid now features = Return imported /\
    List.length imported = List.length features.
Proof.
  intros Hall. revert k.
  induction Hall as [|feature rest (ring & more & Hgeo) _ IH]; intros k; simpl.
  - by eexists.
  - unfold geoJSONToAOI at 1. rewrite Hgeo; simpl.
    destruct (IH (S k)) as (imported & -> & Hlen); simpl.
    eexists; split; [done|]. simpl. by rewrite Hlen.
Qed.

(** [handleImport] on a collection with a feature that is not a polygon:
    the whole import is given up with an alert. *)
Lemma handleImport_non_polygon fileContent uuid now st features :
  JSON_parse fileContent = Return (geojson.FeatureCollection features) ->
  Exists (fun feature => hasPolygon feature = false) features ->
  handleImport JSON_parse fileContent uuid now st
  = Return (alert "Invalid GeoJSON file" st).
Proof.
  intros Hparse Hex. unfold handleImport. rewrite Hparse; simpl.
  by destruct (convertFrom_non_polygon 0 uuid now features Hex) as [error ->].
Qed.

(** [importGeoJSON] on the same kind of collection keeps the polygons. *)
Lemma importGeoJSON_keeps_polygons fileContent uuid now features :
  JSON_parse fileContent = Return (geojson.FeatureCollection features) ->
  Forall (fun feature => hasPolygon feature = true ->
            exists ring rest,
              geojson.geometry feature = Some (geojson.Polygon (ring :: rest)))
         features ->
  Exists (fun feature => hasPolygon feature = true) features ->
  exists imported,
    importGeoJSON JSON_parse (Some (Return fileContent)) uuid now
    = Return imported /\
    List.length imported = List.length (List.filter hasPolygon features).
Proof.
  intros Hparse Hrings Hsome. unfold importGeoJSON. rewrite Hparse; simpl.
  assert (List.filter hasPolygon features <> []) as Hkept.
  { apply Exists_exists in Hsome as (feature & Hin & Hpoly).
    intros Hnil.
    apply list_elem_of_In in Hin.
    assert (In feature (List.filter hasPolygon features)) as Habs
      by (apply filter_In; by split).
    by rewrite Hnil in Habs. }
  destruct (Nat.eqb_spec (List.length features) 0) as [Hzero|_].
  { apply nil_length_inv in Hzero. by subst. }
  destruct (convertFrom_polygons 0 uuid now (List.filter hasPolygon features))
    as (imported & Himp & Hlen).
  { apply Forall_forall. intros feature Hin.
    apply list_elem_of_In, filter_In in Hin as [Hin Hpoly].
    apply list_elem_of_In in Hin.
    rewrite Forall_forall in Hrings. by apply Hrings. }
  rewrite Himp; simpl.
  destruct (Nat.eqb_spec (List.length imported) 0) as [Hzero|_].
  { rewrite Hzero in Hlen. symmetry in Hlen. by apply nil_length_inv in Hlen. }
  by eexists.
Qed.

End ImportFacts.

(** C3, at the collection of the specification's scenario (one Polygon
    feature and one Point feature).  The import that the component runs,
    [handleImport], converts every feature: the Point makes [geoJSONToAOI]
    throw, the handler alerts "Invalid GeoJSON file" and no AOI is added.
    [importGeoJSON], which nothing calls, skips the Point and hands over
    exactly one AOI. *)
Theorem C3_handleImport_gives_up_on_a_point :
  handleImport Sample.parseCollection "scenario" Sample.uuid Sample.now initialState
  = Return (alert "Invalid GeoJSON file" initialState) /\
  aois (Sample.run [ImportClicked "scenario" Sample.uuid Sample.now] initialState)
  = [] /\
  importGeoJSON Sample.parseCollection (Some (Return "scenario"))
                Sample.uuid Sample.now
  = Return [mkAOI (Sample.uuid 0) "" "" (map swap scenarioRing) "Imported AOI"
                  (Sample.now 0) None].
Proof. by vm_compute. Qed.

(** ** Ids and stored vertices of created AOIs *)

Section CreationFacts.
Context {num : Type} {number : JsNumber num}.
Variable forward : num -> num -> outcome string.
Variable toPoint : string -> outcome (num * num).
Variable calculatePolygonArea : list (LatLng num) -> num.
Variable toFixed2 : num -> string.
Implicit Types (st : State num) (latLngs : list (LatLng num)).

(** The AOI that a completed draw gesture appends. *)
Lemma handleCreated_Return uuid now layer latLngs st st' :
  handleCreated forward calculatePolygonArea toFixed2 uuid now layer latLngs st
  = Return st' ->
  exists centerMgrs,
    forward (average lat latLngs) (average lng latLngs) = Return centerMgrs /\
    st' = setAois
            (aois st ++
             [mkAOI uuid centerMgrs
                    (toFixed2 (calculatePolygonArea latLngs) ++ " sq m")%string
                    (map (fun latlng => (lng latlng, lat latlng)) latLngs)
                    (defaultName st) now (Some layer)])
            st.
Proof.
  unfold handleCreated.
  destruct (traverse _ latLngs) as [mgrsCoords|]; simpl; [|done].
  destruct (forward _ _) as [centerMgrs|]; simpl; [|done].
  intros [= <-]. by exists centerMgrs.
Qed.

(** The gesture is accepted whenever [mgrs.forward] converts every vertex
    and the center. *)
Lemma handleCreated_returns uuid now layer latLngs st :
  Forall (fun latlng => returns (forward (lat latlng) (lng latlng)) = true)
         latLngs ->
  returns (forward (average lat latLngs) (average lng latLngs)) = true ->
  exists st',
    handleCreated forward calculatePolygonArea toFixed2 uuid now layer latLngs st
    = Return st'.
Proof.
  intros Hall Hcenter. unfold handleCreated.
  destruct (traverse_returns _ _ Hall) as [mgrsCoords ->].
  simpl. destruct (forward _ _); [|done]. by eexists.
Qed.

(** The AOI that a manual entry appends, when it appends one. *)
Lemma addAOI_Return nowMs now st st' :
  addAOI toPoint nowMs now st = Return st' ->
  st' = st \/
  st' = alert "Invalid MGRS coordinate" st \/
  exists lng lat,
    toPoint (mgrsInput st) = Return (lng, lat) /\
    st' = setMgrsInput ""
            (setAois
               (aois st ++
                [mkAOI (toString nowMs) (mgrsInput st) ""
                       [ (sub lat hundredth, sub lng hundredth);
                         (sub lat hundredth, add lng hundredth);
                         (add lat hundredth, add lng hundredth);
                         (add lat hundredth, sub lng hundredth) ]
                       (defaultName st) now None])
               st).
Proof.
  unfold addAOI. destruct (truthy (mgrsInput st)); simpl.
  - destruct (toPoint (mgrsInput st)) as [[lng lat]|]; simpl; intros [= <-].
    + right; right. by exists lng, lat.
    + right; by left.
  - intros [= <-]. by left.
Qed.

(** Ids stay pairwise distinct as long as every new id is new to the
    collection; deleting never breaks it. *)
Lemma handleCreated_NoDup uuid now layer latLngs st st' :
  handleCreated forward calculatePolygonArea toFixed2 uuid now layer latLngs st
  = Return st' ->
  uuid ∉ ids st -> NoDup (ids st) -> NoDup (ids st').
Proof.
  intros (centerMgrs & _ & ->)%handleCreated_Return Hfresh Hnodup.
  unfold ids; simpl. rewrite map_app; simpl.
  apply NoDup_app. split_and!; [done| |apply NoDup_singleton].
  intros i Hi ->%list_elem_of_singleton. by apply Hfresh.
Qed.

Lemma addAOI_NoDup nowMs now st st' :
  addAOI toPoint nowMs now st = Return st' ->
  toString nowMs ∉ ids st -> NoDup (ids st) -> NoDup (ids st').
Proof.
  intros [->|[->|(lng & lat & _ & ->)]]%addAOI_Return Hfresh Hnodup; try done.
  unfold ids; simpl. rewrite map_app; simpl.
  apply NoDup_app. split_and!; [done| |apply NoDup_singleton].
  intros i Hi ->%list_elem_of_singleton. by apply Hfresh.
Qed.

Lemma deleteAOI_ids i confirmed st :
  ids (deleteAOI i confirmed st)
  = if confirmed then filter (fun j => j ≠ i) (ids st) else ids st.
Proof.
  unfold deleteAOI, ids. destruct confirmed; simpl; [|done].
  induction (aois st) as [|aoi rest IH]; simpl; [done|].
  rewrite !filter_cons. case_decide; simpl; by rewrite IH.
Qed.

Lemma deleteAOI_NoDup i confirmed st :
  NoDup (ids st) -> NoDup (ids (deleteAOI i confirmed st)).
Proof.
  rewrite deleteAOI_ids. destruct confirmed; [|done]. apply NoDup_filter.
Qed.

End CreationFacts.

(** C4, at two manual entries made on the same reading of the clock.
    [addAOI] takes [Date.now().toString()] as the id, so both AOIs get the
    id "1700000000000" and the ids of the collection are not pairwise
    distinct.  ([handleCreated] and [geoJSONToAOI] draw [randomUUID()].) *)
Theorem C4_addAOI_repeats_the_id_of_the_same_millisecond :
  ids (Sample.run
         [ MgrsInputChanged "15TVK1234567890";
           AddClicked 1700000000000 "2023-11-14T22:13:20.000Z";
           MgrsInputChanged "15TVK1234567890";
           AddClicked 1700000000000 "2023-11-14T22:13:20.000Z" ]
         initialState)
  = ["1700000000000"; "1700000000000"] /\
  ~ NoDup ["1700000000000"; "1700000000000"].
Proof.
  split; [by vm_compute|].
  intros Hnodup. apply NoDup_cons in Hnodup as [Hfresh _].
  apply Hfresh. by left.
Qed.

(** C5, at one AOI per creation path.  The draw gesture on the rectangle
    with corners (lat 45, lng -100) and (lat 46, lng -99) stores
    (longitude, latitude) pairs; the import of the scenario ring, written
    longitude first as GeoJSON has it, stores (latitude, longitude) pairs;
    the manual entry around the point that [mgrs.toPoint] gives as
    [[-93, 45]] (longitude -93, latitude 45) stores (latitude, longitude)
    pairs.  The three paths do not share one storage order. *)
Theorem C5_bounds_order_differs_by_path :
  map bounds
      (aois (Sample.run
               [ DrawCreated (Sample.uuid 0) (Sample.now 0) 7 (rectangle inject_Z) ]
               initialState))
  = [ [ (-100, 45); (-99, 45); (-99, 46); (-100, 46) ]%Q ] /\
  map bounds
      (aois (Sample.run
               [ ImportClicked "polygon" Sample.uuid Sample.now ] initialState))
  = [ [ (45, -99); (46, -99); (46, -98); (45, -98); (45, -99) ]%Q ] /\
  map bounds
      (aois (Sample.run
               [ MgrsInputChanged "15TVK1234567890";
                 AddClicked 1700000000000 (Sample.now 0) ]
               initialState))
  = [ [ (4499 # 100, -9301 # 100); (4499 # 100, -9299 # 100);
        (4501 # 100, -9299 # 100); (4501 # 100, -9301 # 100) ]%Q ].
Proof. by vm_compute. Qed.

(** ** Selection *)

Section SelectionFacts.
Context {num : Type}.
Implicit Types (st : State num) (aoi : AOI num).

Lemma filter_none (P : AOI num -> Prop) `{!forall aoi, Decision (P aoi)}
      (rows : list (AOI num)) :
  Forall (fun aoi => ~ P aoi) rows -> filter P rows = [].
Proof.
  induction 1 as [|aoi rest Hno _ IH]; [done|].
  by rewrite filter_cons_False.
Qed.

Lemma selectedAois_none st : selectedAoiId st = None -> selectedAois st = [].
Proof.
  unfold selectedAois. intros ->.
  by apply filter_none, Forall_forall.
Qed.

Lemma selected_at_most_once (rows : list (AOI num)) (i : string) :
  NoDup (map id rows) ->
  List.length (filter (fun aoi => Some (id aoi) = Some i) rows) <= 1.
Proof.
  induction rows as [|aoi rest IH]; simpl; [lia|].
  intros [Hfresh Hnodup]%NoDup_cons. rewrite filter_cons.
  case_decide as Hsel; [|by apply IH].
  injection Hsel as Hsel.
  assert (filter (fun aoi => Some (id aoi) = Some i) rest = []) as ->; [|simpl; lia].
  apply filter_none, Forall_forall. intros other Hin [= Hother].
  apply Hfresh. rewrite Hsel, <- Hother. by apply list_elem_of_fmap_2.
Qed.

Lemma deleteAOI_removes_every_match i st :
  filter (fun aoi => Some (id aoi) = Some i) (aois (deleteAOI i true st)) = [].
Proof.
  simpl. apply filter_none, Forall_forall. intros aoi Hin [= Hsel].
  by apply list_elem_of_filter in Hin as [Hne _].
Qed.

End SelectionFacts.

(** C6, as amended.  Neither [deleteAOI] nor the "Delete All" handler
    writes [selectedAoiId]: it keeps its value.  After the deletion of the
    AOI whose id is the selected one, and after "Delete All", no AOI of the
    collection carries the selected id, so none is shown selected.  In
    every state whose ids are pairwise distinct at most one AOI carries the
    selected id. *)
Theorem C6_no_listed_aoi_selected_after_delete {num}
        (st : State num) (i : string) :
  selectedAoiId st = Some i ->
  selectedAois (deleteAOI i true st) = [] /\
  selectedAois (deleteAll true st) = [] /\
  selectedAoiId (deleteAOI i true st) = Some i /\
  selectedAoiId (deleteAll true st) = Some i /\
  (NoDup (ids st) -> List.length (selectedAois st) <= 1).
Proof.
  intros Hsel. split_and!; try done.
  - unfold selectedAois.
    change (selectedAoiId (deleteAOI i true st)) with (selectedAoiId st).
    rewrite Hsel. apply deleteAOI_removes_every_match.
  - unfold selectedAois. rewrite Hsel. by apply selected_at_most_once.
Qed.

Lemma C6_no_listed_aoi_selected_after_delete_witness :
  selectedAoiId editingState = Some "a1" /\
  selectedAois (deleteAOI "a1" true editingState) = [] /\
  selectedAois (deleteAll true editingState) = [] /\
  List.length (selectedAois editingState) <= 1.
Proof.
  destruct (C6_no_listed_aoi_selected_after_delete editingState "a1")
    as (Hdelete & Hall & _ & _ & Hone).
  - reflexivity.
  - split_and!; [reflexivity|exact Hdelete|exact Hall|].
    apply Hone. apply NoDup_cons. split; [|apply NoDup_singleton].
    by intros ?%list_elem_of_singleton.
Defined.

(** C6 as stated fails.  After the selected AOI is deleted, and after
    "Delete All", [selectedAoiId] still holds the id: the selection is not
    cleared.  And after the same export is imported twice, a click on the
    first row leaves two AOIs selected. *)
Lemma C6_selection_kept_on_delete_and_shared_by_duplicates :
  selectedAoiId
    (Sample.run [ ImportClicked "export" Sample.uuid Sample.now;
                  RowClicked 0;
                  DeleteClicked 0 true ] initialState) = Some "a1" /\
  selectedAoiId
    (Sample.run [ ImportClicked "export" Sample.uuid Sample.now;
                  RowClicked 0;
                  DeleteAllClicked true ] initialState) = Some "a1" /\
  map id
      (selectedAois
         (Sample.run [ ImportClicked "export" Sample.uuid Sample.now;
                       ImportClicked "export" Sample.uuid Sample.now;
                       RowClicked 0 ] initialState)) = ["a1"; "a1"].
Proof. by vm_compute. Qed.

(** ** The centroid and the area of a drawn AOI *)

Section CentroidFacts.
#[local] Open Scope R_scope.

(** The handler's [reduce] from [0] computes the sum. *)
Lemma reduce_sum (f : LatLng R -> R) (latLngs : list (LatLng R)) (start : R) :
  fold_left (fun sum latlng => add sum (f latlng)) latLngs start
  = start + foldr Rplus 0 (map f latLngs).
Proof.
  revert start. induction latLngs as [|latlng rest IH]; intros start; simpl.
  - lra.
  - rewrite IH. simpl. lra.
Qed.

Lemma average_arithmeticMean (f : LatLng R -> R) (latLngs : list (LatLng R)) :
  average f latLngs = arithmeticMean (map f latLngs).
Proof.
  unfold average, arithmeticMean. rewrite reduce_sum, length_map. simpl.
  by rewrite Rplus_0_l.
Qed.

Lemma rectangle_center :
  arithmeticMean (map lat (rectangle IZR)) = 45.5 /\
  arithmeticMean (map lng (rectangle IZR)) = -99.5.
Proof. unfold arithmeticMean; simpl. lra. Qed.

Lemma sqrt_10_bounds : 3 < sqrt 10 < 4.
Proof.
  assert (sqrt (3 * 3) = 3) as Hthree by (apply sqrt_square; lra).
  assert (sqrt (4 * 4) = 4) as Hfour by (apply sqrt_square; lra).
  assert (sqrt (3 * 3) < sqrt 10) by (apply sqrt_lt_1; lra).
  assert (sqrt 10 < sqrt (4 * 4)) by (apply sqrt_lt_1; lra).
  lra.
Qed.

(** The cosine of 45.5 degrees lies between those of 60 and of 0 degrees. *)
Lemma cos_center_bounds : 1 / 2 < cos (45.5 * PI / 180) <= 1.
Proof.
  pose proof PI_RGT_0 as Hpi. split; [|apply COS_bound].
  rewrite <- cos_PI3. apply cos_decreasing_1; lra.
Qed.

Lemma rectangle_planarArea (metersPerDegree : R) :
  planarArea metersPerDegree (rectangle IZR)
  = metersPerDegree * metersPerDegree * cos (45.5 * PI / 180).
Proof.
  unfold planarArea. rewrite (proj1 rectangle_center).
  pose proof cos_center_bounds as [Hlow _].
  unfold shoelace, shoelaceFrom, cross; simpl.
  set (c := cos (45.5 * PI / 180)) in *.
  replace (_ / 2) with (metersPerDegree * metersPerDegree * c) by lra.
  apply Rabs_pos_eq. nra.
Qed.

Lemma rectangle_area_order (metersPerDegree : R) :
  110000 <= metersPerDegree <= 112000 ->
  onTheOrderOf (10 ^ 10) (planarArea metersPerDegree (rectangle IZR)).
Proof.
  intros [Hlow Hhigh]. rewrite rectangle_planarArea. unfold onTheOrderOf.
  pose proof cos_center_bounds as [Hcos Hone].
  pose proof sqrt_10_bounds as [Hthree Hfour].
  assert (10 ^ 10 = 10000000000) as -> by (simpl; lra).
  set (c := cos (45.5 * PI / 180)) in *. set (s := sqrt 10) in *.
  assert (110000 * 110000 <= metersPerDegree * metersPerDegree) as Hsq by nra.
  assert (metersPerDegree * metersPerDegree <= 112000 * 112000) as Hsq' by nra.
  set (m2 := metersPerDegree * metersPerDegree) in *.
  clearbody c s m2. split.
  - apply Rle_trans with (10000000000 / 3).
    + apply Rmult_le_compat_l; [lra|]. apply Rinv_le_contravar; lra.
    + nra.
  - apply Rle_lt_trans with (112000 * 112000); [nra|]. nra.
Qed.

End CentroidFacts.

(** C1.  Every AOI that [handleCreated] appends for a draw gesture with
    vertices [latLngs] has as [mgrsCoordinate] the result of [mgrs.forward]
    at the mean of the vertex latitudes and the mean of the vertex
    longitudes.  For the rectangle (45,-100), (45,-99), (46,-99), (46,-100),
    whenever [mgrs.forward] converts the four vertices and (45.5, -99.5),
    the gesture appends an AOI whose [mgrsCoordinate] is the conversion of
    (45.5, -99.5) and whose [dimensions] is the two-decimal rendering of
    the area followed by " sq m"; with the area computed as the
    specification describes, for any length of a degree of latitude
    between 110 km and 112 km, that area is on the order of 10^10. *)
Theorem C1_centroid_of_drawn_aoi :
  (forall forward calculatePolygonArea toFixed2 uuid now layer
          (latLngs : list (LatLng R)) st st',
      handleCreated forward calculatePolygonArea toFixed2 uuid now layer latLngs st
      = Return st' ->
      exists created,
        aois st' = aois st ++ [created] /\
        forward (arithmeticMean (map lat latLngs))
                (arithmeticMean (map lng latLngs))
        = Return (mgrsCoordinate created)) /\
  (forall forward toFixed2 metersPerDegree uuid now layer (st : State R) centerMgrs,
      Forall (fun latlng => returns (forward (lat latlng) (lng latlng)) = true)
             (rectangle IZR) ->
      forward 45.5%R (-99.5)%R = Return centerMgrs ->
      (110000 <= metersPerDegree <= 112000)%R ->
      exists created,
        handleCreated forward (planarArea metersPerDegree) toFixed2
                      uuid now layer (rectangle IZR) st
        = Return (setAois (aois st ++ [created]) st) /\
        mgrsCoordinate created = centerMgrs /\
        dimensions created
        = (toFixed2 (planarArea metersPerDegree (rectangle IZR)) ++ " sq m")%string /\
        onTheOrderOf (10 ^ 10) (planarArea metersPerDegree (rectangle IZR))).
Proof.
  split.
  - intros forward calculatePolygonArea toFixed2 uuid now layer latLngs st st' Hcreated.
    apply handleCreated_Return in Hcreated as (centerMgrs & Hcenter & ->).
    rewrite !average_arithmeticMean in Hcenter.
    eexists; split; [reflexivity|]. exact Hcenter.
  - intros forward toFixed2 metersPerDegree uuid now layer st centerMgrs
           Hvertices Hcenter Hdegree.
    destruct rectangle_center as [Hlat Hlng].
    destruct (handleCreated_returns forward (planarArea metersPerDegree) toFixed2
                uuid now layer (rectangle IZR) st Hvertices) as [st' Hcreated].
    { by rewrite !average_arithmeticMean, Hlat, Hlng, Hcenter. }
    rewrite Hcreated.
    apply handleCreated_Return in Hcreated as (found & Hfound & ->).
    rewrite !average_arithmeticMean, Hlat, Hlng, Hcenter in Hfound.
    injection Hfound as <-.
    eexists; split; [reflexivity|]. simpl.
    split_and!; [done|done|]. by apply rectangle_area_order.
Qed.

Lemma C1_centroid_of_drawn_aoi_witness :
  exists created,
    handleCreated Sample.forward (planarArea 111320) Sample.toFixed2
                  (Sample.uuid 0) (Sample.now 0) 7 (rectangle IZR) initialState
    = Return (setAois (aois initialState ++ [created]) initialState) /\
    mgrsCoordinate created = "14TMQ8096339012" /\
    dimensions created
    = (Sample.toFixed2 (planarArea 111320 (rectangle IZR)) ++ " sq m")%string /\
    onTheOrderOf (10 ^ 10) (planarArea 111320 (rectangle IZR)).
Proof.
  apply (proj2 C1_centroid_of_drawn_aoi Sample.forward Sample.toFixed2 111320%R).
  - repeat constructor.
  - reflexivity.
  - lra.
Defined.


(** * Further properties of the code *)

(** ** Persistence *)

(** X1.  What [storage.save] writes, a reload reads back: when the storage
    is accessible and [JSON.parse] inverts [JSON.stringify] on the saved
    array, [storage.load] returns the saved AOIs without their layer
    handles, and the mount effect run on the initial state installs them. *)
Theorem X1_save_then_reload_restores_the_collection {num}
        (JSON_stringify : list (AOI num) -> string)
        (JSON_parse : string -> outcome (list (AOI num)))
        (localStorage : Storage) (data : list (AOI num)) :
  accessible localStorage = true ->
  JSON_stringify (map withoutLayer data) <> "" ->
  JSON_parse (JSON_stringify (map withoutLayer data))
  = Return (map withoutLayer data) ->
  exists stored,
    save JSON_stringify (Some localStorage) data = Return (Some stored) /\
    load JSON_parse (Some stored) = Return (map withoutLayer data) /\
    aois (mount JSON_parse (Some stored) initialState) = map withoutLayer data /\
    Forall (fun aoi => layer aoi = None)
           (aois (mount JSON_parse (Some stored) initialState)).
Proof.
  intros Haccess Htext Hparse.
  unfold save, setItem. rewrite Haccess; simpl.
  eexists; split; [reflexivity|].
  assert (load JSON_parse
            (Some (mkStorage true
                     (<[STORAGE_KEY:=JSON_stringify (map withoutLayer data)]>
                        (items localStorage))))
          = Return (map withoutLayer data)) as Hload.
  { unfold load, getItem; simpl. rewrite lookup_insert_eq; simpl.
    destruct (JSON_stringify (map withoutLayer data)) eqn:Hs; [done|].
    simpl. by rewrite Hparse. }
  split; [exact Hload|].
  assert (aois (mount JSON_parse
                  (Some (mkStorage true
                     (<[STORAGE_KEY:=JSON_stringify (map withoutLayer data)]>
                        (items localStorage)))) initialState)
          = map withoutLayer data) as Hmount.
  { unfold mount. rewrite Hload. by destruct data. }
  split; [exact Hmount|].
  rewrite Hmount. apply Forall_forall. intros aoi Hin.
  apply list_elem_of_fmap in Hin as (original & -> & _). done.
Qed.

Lemma X1_save_then_reload_restores_the_collection_witness :
  exists stored,
    save harbourStringify (Some namedStorage) [harbourAoi] = Return (Some stored) /\
    load Sample.parseStored (Some stored) = Return (map withoutLayer [harbourAoi]) /\
    aois (mount Sample.parseStored (Some stored) initialState)
    = map withoutLayer [harbourAoi] /\
    Forall (fun aoi => layer aoi = None)
           (aois (mount Sample.parseStored (Some stored) initialState)).
Proof.
  apply (X1_save_then_reload_restores_the_collection
           harbourStringify Sample.parseStored namedStorage [harbourAoi]).
  - reflexivity.
  - discriminate.
  - reflexivity.
Defined.

(** X2.  [storage.save] never throws.  Without [window] there is no
    storage afterwards either; a storage that refuses the write is left as
    it was; and a write changes no entry but the one under [STORAGE_KEY]
    (the project name, kept under another key, survives every save). *)
Theorem X2_save_is_best_effort_and_local {num}
        (JSON_stringify : list (AOI num) -> string)
        (window : option Storage) (data : list (AOI num)) :
  exists after,
    save JSON_stringify window data = Return after /\
    (window = None -> after = None) /\
    (forall localStorage,
        window = Some localStorage ->
        exists stored,
          after = Some stored /\
          (accessible localStorage = false -> stored = localStorage) /\
          (forall key, key <> STORAGE_KEY ->
                       items stored !! key = items localStorage !! key) /\
          items stored !! PROJECT_NAME_KEY = items localStorage !! PROJECT_NAME_KEY).
Proof.
  destruct window as [[[] entries]|]; simpl; unfold setItem; simpl.
  - eexists; split; [reflexivity|]. split; [done|].
    intros ? [= <-]. eexists; split; [reflexivity|]; simpl.
    split_and!; [done| |by rewrite lookup_insert_ne].
    intros key Hkey. by rewrite lookup_insert_ne.
  - eexists; split; [reflexivity|]. split; [done|].
    intros ? [= <-]. by eexists.
  - eexists; split; [reflexivity|]. by split.
Qed.

Lemma X2_save_is_best_effort_and_local_witness :
  exists stored,
    save harbourStringify (Some namedStorage) [harbourAoi] = Return (Some stored) /\
    items stored !! PROJECT_NAME_KEY = Some "Survey".
Proof.
  destruct (X2_save_is_best_effort_and_local harbourStringify
              (Some namedStorage) [harbourAoi])
    as (after & Hsave & _ & Hsome).
  destruct (Hsome namedStorage eq_refl) as (stored & -> & _ & _ & Hname).
  exists stored. split; [exact Hsave|].
  rewrite Hname. vm_compute. reflexivity.
Defined.

(** ** Export and import of one AOI *)

Section RoundTripFacts.
Context {num : Type}.
Implicit Types (aoi : AOI num) (feature : geojson.Feature num).

Lemma orElse_not_empty (a b : string) : b <> "" -> orElse a b <> "".
Proof. by destruct a. Qed.

Lemma orDefault_not_empty (v : option string) (b : string) :
  b <> "" -> orDefault v b <> "".
Proof. destruct v; simpl; [apply orElse_not_empty|done]. Qed.

(** The AOI that comes back from an exported one. *)
Lemma geoJSONToAOI_aoiToGeoJSON uuid now aoi :
  geoJSONToAOI uuid now (aoiToGeoJSON aoi)
  = Return (mkAOI (orElse (id aoi) uuid) (mgrsCoordinate aoi) (dimensions aoi)
                  (bounds aoi) (orElse (name aoi) "Imported AOI")
                  (orElse (dateCreated aoi) now) None).
Proof.
  unfold geoJSONToAOI, aoiToGeoJSON, property; simpl.
  by rewrite map_swap_swap, !orElse_empty.
Qed.

End RoundTripFacts.

(** X3.  Whatever [aoiToGeoJSON] writes, [geoJSONToAOI] accepts: the
    conversion back never throws and always gives the same [bounds],
    [mgrsCoordinate] and [dimensions], no layer handle and a name that is
    not empty; [id], [name] and [dateCreated] come back unless they were
    the empty string, which gives way to the generated id, "Imported AOI"
    and the time of the import. *)
Theorem X3_every_exported_feature_imports {num}
        (aoi : AOI num) (uuid now : string) :
  exists r,
    geoJSONToAOI uuid now (aoiToGeoJSON aoi) = Return r /\
    bounds r = bounds aoi /\
    mgrsCoordinate r = mgrsCoordinate aoi /\
    dimensions r = dimensions aoi /\
    layer r = None /\
    name r <> "" /\
    id r = (if decide (id aoi = "") then uuid else id aoi) /\
    name r = (if decide (name aoi = "") then "Imported AOI" else name aoi) /\
    dateCreated r = (if decide (dateCreated aoi = "") then now else dateCreated aoi).
Proof.
  rewrite geoJSONToAOI_aoiToGeoJSON. eexists; split; [reflexivity|]; simpl.
  rewrite !orElse_spec. split_and!; try done.
  by case_decide.
Qed.

(** X4.  One import settles an AOI: when the generated id and the time of
    the import are not empty, the AOI that comes back from an export is
    returned unchanged by every later export and import, whatever id and
    time those imports draw. *)
Theorem X4_second_round_trip_is_the_identity {num}
        (aoi r : AOI num) (uuid now uuid' now' : string) :
  uuid <> "" -> now <> "" ->
  geoJSONToAOI uuid now (aoiToGeoJSON aoi) = Return r ->
  geoJSONToAOI uuid' now' (aoiToGeoJSON r) = Return r.
Proof.
  intros Huuid Hnow. rewrite !geoJSONToAOI_aoiToGeoJSON. intros [= <-]; simpl.
  f_equal. f_equal; apply orElse_truthy; by apply orElse_not_empty.
Qed.

Lemma X4_second_round_trip_is_the_identity_witness :
  exists r,
    geoJSONToAOI (Sample.uuid 0) (Sample.now 0) (aoiToGeoJSON blankAoi) = Return r /\
    geoJSONToAOI (Sample.uuid 1) "2030-01-01T00:00:00.000Z" (aoiToGeoJSON r)
    = Return r.
Proof.
  eexists. split; [reflexivity|].
  apply (X4_second_round_trip_is_the_identity blankAoi _
           (Sample.uuid 0) (Sample.now 0)); [discriminate|discriminate|reflexivity].
Defined.



(** ** Import of a document *)

Section DocumentFacts.
Context {num : Type}.
Variable JSON_parse : string -> outcome (geojson.GeoJSON num).
Implicit Types (st : State num) (features : list (geojson.Feature num)).

Lemma geoJSONToAOI_importable uuid now (feature : geojson.Feature num) :
  importable feature <-> exists r, geoJSONToAOI uuid now feature = Return r.
Proof.
  split.
  - intros (ring & rest & Hgeo). unfold geoJSONToAOI. rewrite Hgeo. by eexists.
  - intros [r (ring & rest & Hgeo & _)%geoJSONToAOI_Return]. by exists ring, rest.
Qed.

Lemma importable_hasPolygon (feature : geojson.Feature num) :
  importable feature -> hasPolygon feature = true.
Proof. intros (ring & rest & Hgeo). unfold hasPolygon. by rewrite Hgeo. Qed.

(** [features.map(geoJSONToAOI)] returns exactly when every feature is
    importable, with one AOI per feature and no layer handle. *)
Lemma convertFrom_Return k uuid now features imported :
  convertFrom k uuid now features = Return imported ->
  Forall importable features /\
  List.length imported = List.length features /\
  Forall (fun aoi => layer aoi = None) imported.
Proof.
  revert k imported. induction features as [|feature rest IH]; intros k imported; simpl.
  - intros [= <-]. by repeat split.
  - destruct (geoJSONToAOI (uuid k) (now k) feature) as [aoi|] eqn:Hone; simpl; [|done].
    destruct (convertFrom (S k) uuid now rest) as [others|] eqn:Hrest; simpl; [|done].
    intros [= <-]. destruct (IH _ _ Hrest) as (Hall & Hlen & Hlayers).
    split_and!.
    + constructor; [|done]. apply (geoJSONToAOI_importable (uuid k) (now k)). by eexists.
    + simpl. by rewrite Hlen.
    + constructor; [|done].
      by apply geoJSONToAOI_Return in Hone as (ring & more & _ & ->).
Qed.

Lemma convertFrom_Throw k uuid now features :
  ~ Forall importable features ->
  exists error, convertFrom k uuid now features = Throw error.
Proof.
  intros Hnot. destruct (convertFrom k uuid now features) as [imported|error] eqn:Hc.
  - by apply convertFrom_Return in Hc as [Hall _].
  - by eexists.
Qed.

Lemma filter_hasPolygon_importable features :
  Forall importable features -> List.filter hasPolygon features = features.
Proof.
  induction 1 as [|feature rest Hone _ IH]; simpl; [done|].
  by rewrite (importable_hasPolygon _ Hone), IH.
Qed.

Lemma setAois_same st : setAois (aois st ++ []) st = st.
Proof. rewrite app_nil_r. by destruct st. Qed.

End DocumentFacts.


(** X7.  [handleImport] does not read the [type] of the document.  It
    refuses, with the alert as only effect, a file that does not parse, a
    document without a [features] array (a single Feature, or a document
    of another type or of none that has no such member) and a [features]
    array with one feature that is not a Polygon with a first ring; it
    imports the [features] array of every other document, be it a
    FeatureCollection, of another type or without a type. *)
Theorem X7_handleImport_refusals {num}
        (JSON_parse : string -> outcome (geojson.GeoJSON num))
        (fileContent : string) (uuid now : nat -> string) (st : State num) :
  (forall error, JSON_parse fileContent = Throw error ->
     handleImport JSON_parse fileContent uuid now st
     = Return (alert "Invalid GeoJSON file" st)) /\
  (forall document,
     JSON_parse fileContent = Return document ->
     ((exists feature, document = geojson.SingleFeature feature) \/
      (exists type, document = geojson.OtherType type None) \/
      document = geojson.NoType None) ->
     handleImport JSON_parse fileContent uuid now st
     = Return (alert "Invalid GeoJSON file" st)) /\
  (forall document features,
     JSON_parse fileContent = Return document ->
     (document = geojson.FeatureCollection features \/
      (exists type, document = geojson.OtherType type (Some features)) \/
      document = geojson.NoType (Some features)) ->
     (~ Forall importable features ->
      handleImport JSON_parse fileContent uuid now st
      = Return (alert "Invalid GeoJSON file" st)) /\
     (Forall importable features ->
      exists newAois,
        handleImport JSON_parse fileContent uuid now st
        = Return (setAois (aois st ++ newAois) st) /\
        List.length newAois = List.length features)).
Proof.
  unfold handleImport. split_and!.
  - by intros error ->.
  - by intros document -> [[feature ->]|[[type ->]| ->]].
  - intros document features -> [->|[[type ->]| ->]]; simpl.
    all: split;
      [ intros Hnot;
        by destruct (convertFrom_Throw 0 uuid now features Hnot) as [error ->]
      | intros Hall;
        destruct (convertFrom_polygons 0 uuid now features Hall)
          as (newAois & -> & Hlen);
        by exists newAois ].
Qed.

Lemma X7_handleImport_refusals_witness :
  handleImport Sample.parseCollection "not json" Sample.uuid Sample.now initialState
  = Return (alert "Invalid GeoJSON file" initialState) /\
  handleImport Sample.parseCollection "scenario" Sample.uuid Sample.now initialState
  = Return (alert "Invalid GeoJSON file" initialState) /\
  exists newAois,
    handleImport parseUntyped "{}" Sample.uuid Sample.now initialState
    = Return (setAois (aois initialState ++ newAois) initialState) /\
    List.length newAois = 1.
Proof.
  split_and!.
  - apply (proj1 (X7_handleImport_refusals Sample.parseCollection "not json"
                    Sample.uuid Sample.now initialState) "SyntaxError").
    reflexivity.
  - apply (proj2 (proj2 (X7_handleImport_refusals Sample.parseCollection "scenario"
                    Sample.uuid Sample.now initialState))
             scenarioCollection
             [ geojson.mkFeature (Some (geojson.Polygon [scenarioRing])) None;
               geojson.mkFeature (Some (geojson.Point (-99, 45)%Q)) None ]).
    + reflexivity.
    + by left.
    + intros Hall. apply Forall_cons in Hall as [_ Hpoint].
      apply Forall_cons in Hpoint as [(ring & rest & Hgeo) _]. discriminate.
  - apply (proj2 (proj2 (X7_handleImport_refusals parseUntyped "{}"
                    Sample.uuid Sample.now initialState))
             (geojson.NoType
                (Some [ geojson.mkFeature (Some (geojson.Polygon [scenarioRing])) None ]))
             [ geojson.mkFeature (Some (geojson.Polygon [scenarioRing])) None ]).
    + reflexivity.
    + right. by right.
    + repeat constructor. by exists scenarioRing, [].
Defined.

(** X8.  What [importGeoJSON] hands over is never empty: the file was read
    and parsed to a FeatureCollection or to a single Feature, and the
    result holds one AOI, without a layer handle, for each feature whose
    geometry is a Polygon; the other features are dropped. *)
Theorem X8_importGeoJSON_gives_the_polygons {num}
        (JSON_parse : string -> outcome (geojson.GeoJSON num))
        (file : option (outcome string)) (uuid now : nat -> string)
        (imported : list (AOI num)) :
  importGeoJSON JSON_parse file uuid now = Return imported ->
  imported <> [] /\
  Forall (fun aoi => layer aoi = None) imported /\
  exists fileContent features,
    file = Some (Return fileContent) /\
    (JSON_parse fileContent = Return (geojson.FeatureCollection features) \/
     exists feature,
       JSON_parse fileContent = Return (geojson.SingleFeature feature) /\
       features = [feature]) /\
    List.length imported = List.length (List.filter hasPolygon features).
Proof.
  unfold importGeoJSON. destruct file as [[fileContent|]|]; [|done|done].
  destruct (JSON_parse fileContent) as [document|] eqn:Hparse; simpl; [|done].
  assert (forall features,
             (if Nat.eqb (List.length features) 0
              then Throw "No valid features found in GeoJSON"
              else importedAois ← convertFrom 0 uuid now (List.filter hasPolygon features);
                   if Nat.eqb (List.length importedAois) 0
                   then Throw "No Polygon features found in GeoJSON"
                   else Return importedAois) = Return imported ->
             imported <> [] /\
             Forall (fun aoi => layer aoi = None) imported /\
             List.length imported = List.length (List.filter hasPolygon features))
    as Hkept.
  { intros features. destruct (Nat.eqb _ 0); [done|].
    destruct (convertFrom 0 uuid now _) as [importedAois|] eqn:Hconvert; simpl; [|done].
    destruct (Nat.eqb_spec (List.length importedAois) 0) as [|Hsome]; [done|].
    intros [= <-]. apply convertFrom_Return in Hconvert as (_ & Hlen & Hlayers).
    split_and!; [|done|done]. by intros ->. }
  destruct document as [features|feature|type member|member]; [| |done|done].
  - intros Hresult. destruct (Hkept features Hresult) as (Hne & Hlayers & Hlen).
    split_and!; [done|done|].
    exists fileContent, features. split_and!; [done|by left|done].
  - intros Hresult. destruct (Hkept [feature] Hresult) as (Hne & Hlayers & Hlen).
    split_and!; [done|done|].
    exists fileContent, [feature]. split_and!; [done| |done].
    right. by exists feature.
Qed.

Lemma X8_importGeoJSON_gives_the_polygons_witness :
  exists imported,
    importGeoJSON Sample.parseCollection (Some (Return "scenario"))
                  Sample.uuid Sample.now = Return imported /\
    imported <> [] /\
    List.length imported = 1.
Proof.
  eexists. split; [reflexivity|].
  destruct (X8_importGeoJSON_gives_the_polygons Sample.parseCollection
              (Some (Return "scenario")) Sample.uuid Sample.now _ eq_refl)
    as (Hne & _ & _).
  split; [exact Hne|reflexivity].
Defined.

(** X9.  On a FeatureCollection that is not empty and whose features are
    all Polygons with a first ring, the two importers agree: the AOIs that
    [importGeoJSON] hands over are the ones that [handleImport] appends. *)
Theorem X9_importers_agree_on_polygon_collections {num}
        (JSON_parse : string -> outcome (geojson.GeoJSON num))
        (fileContent : string) (features : list (geojson.Feature num))
        (uuid now : nat -> string) (st : State num) :
  JSON_parse fileContent = Return (geojson.FeatureCollection features) ->
  features <> [] ->
  Forall importable features ->
  exists imported,
    importGeoJSON JSON_parse (Some (Return fileContent)) uuid now
    = Return imported /\
    handleImport JSON_parse fileContent uuid now st
    = Return (setAois (aois st ++ imported) st) /\
    List.length imported = List.length features.
Proof.
  intros Hparse Hne Hall. unfold importGeoJSON, handleImport. rewrite Hparse; simpl.
  rewrite (filter_hasPolygon_importable _ Hall).
  destruct (convertFrom 0 uuid now features) as [imported|error] eqn:Hconvert.
  - destruct (convertFrom_Return _ _ _ _ _ Hconvert) as (_ & Hlen & _).
    destruct features as [|first others]; [done|].
    destruct imported as [|aoi imported]; [done|]. simpl.
    by eexists.
  - destruct (convertFrom_polygons 0 uuid now features Hall) as (imported & Hok & _).
    congruence.
Qed.

Lemma X9_importers_agree_on_polygon_collections_witness :
  exists imported,
    importGeoJSON Sample.parseCollection (Some (Return "polygon"))
                  Sample.uuid Sample.now = Return imported /\
    handleImport Sample.parseCollection "polygon" Sample.uuid Sample.now initialState
    = Return (setAois (aois initialState ++ imported) initialState) /\
    List.length imported = 1.
Proof.
  apply (X9_importers_agree_on_polygon_collections Sample.parseCollection
           "polygon"
           [ geojson.mkFeature (Some (geojson.Polygon [scenarioRing])) None ]).
  - reflexivity.
  - discriminate.
  - repeat constructor. by exists scenarioRing, [].
Defined.

(** X10.  On a FeatureCollection without features the two importers part:
    [handleImport] accepts it without a word and leaves the state as it
    was, [importGeoJSON] rejects it. *)
Theorem X10_empty_collection {num}
        (JSON_parse : string -> outcome (geojson.GeoJSON num))
        (fileContent : string) (uuid now : nat -> string) (st : State num) :
  JSON_parse fileContent = Return (geojson.FeatureCollection []) ->
  handleImport JSON_parse fileContent uuid now st = Return st /\
  importGeoJSON JSON_parse (Some (Return fileContent)) uuid now
  = Throw "No valid features found in GeoJSON".
Proof.
  intros Hparse. unfold handleImport, importGeoJSON. rewrite Hparse; simpl.
  by rewrite setAois_same.
Qed.

Lemma X10_empty_collection_witness :
  handleImport parseEmptyCollection "{}" Sample.uuid Sample.now editingState
  = Return editingState /\
  importGeoJSON parseEmptyCollection (Some (Return "{}")) Sample.uuid Sample.now
  = Throw "No valid features found in GeoJSON".
Proof.
  apply (X10_empty_collection parseEmptyCollection "{}" Sample.uuid Sample.now
           editingState).
  reflexivity.
Defined.

(** ** The component as a whole *)

Section MachineFacts.
Context {num : Type} {number : JsNumber num}.
Variable forward : num -> num -> outcome string.
Variable toPoint : string -> outcome (num * num).
Variable calculatePolygonArea : list (LatLng num) -> num.
Variable toFixed2 : num -> string.
Variable JSON_parse : string -> outcome (geojson.GeoJSON num).
Variable parseStored : string -> outcome (list (AOI num)).
Implicit Types (st : State num) (e : @Event num).


(** What each handler that can fail leaves behind. *)
Lemma settle_handleCreated uuid now layer latLngs st :
  settle (handleCreated forward calculatePolygonArea toFixed2 uuid now layer latLngs st) st
  = st \/
  exists centerMgrs,
    settle (handleCreated forward calculatePolygonArea toFixed2 uuid now layer latLngs st) st
    = setAois
        (aois st ++
         [mkAOI uuid centerMgrs
                (toFixed2 (calculatePolygonArea latLngs) ++ " sq m")%string
                (map (fun latlng => (lng latlng, lat latlng)) latLngs)
                (defaultName st) now (Some layer)])
        st.
Proof.
  destruct (handleCreated forward calculatePolygonArea toFixed2 uuid now layer latLngs st)
    as [st'|] eqn:Hcreated; simpl; [|by left].
  apply handleCreated_Return in Hcreated as (centerMgrs & _ & ->).
  right. by exists centerMgrs.
Qed.

Lemma settle_addAOI nowMs now st :
  settle (addAOI toPoint nowMs now st) st = st \/
  settle (addAOI toPoint nowMs now st) st = alert "Invalid MGRS coordinate" st \/
  exists lng lat,
    settle (addAOI toPoint nowMs now st) st
    = setMgrsInput ""
        (setAois
           (aois st ++
            [mkAOI (toString nowMs) (mgrsInput st) ""
                   [ (sub lat hundredth, sub lng hundredth);
                     (sub lat hundredth, add lng hundredth);
                     (add lat hundredth, add lng hundredth);
                     (add lat hundredth, sub lng hundredth) ]
                   (defaultName st) now None])
           st).
Proof.
  destruct (addAOI toPoint nowMs now st) as [st'|] eqn:Hadd; simpl; [|by left].
  apply addAOI_Return in Hadd as [->|[->|(lng & lat & _ & ->)]]; eauto.
Qed.

Lemma settle_handleImport fileContent uuid now st :
  settle (handleImport JSON_parse fileContent uuid now st) st
  = alert "Invalid GeoJSON file" st \/
  exists newAois,
    Forall (fun aoi => name aoi <> "" /\ layer aoi = None) newAois /\
    settle (handleImport JSON_parse fileContent uuid now st) st
    = setAois (aois st ++ newAois) st.
Proof.
  unfold handleImport.
  destruct (JSON_parse fileContent) as [document|]; simpl; [|by left].
  destruct (featuresMember document) as [features|]; simpl; [|by left].
  destruct (convertFrom 0 uuid now features) as [newAois|] eqn:Hconvert; simpl;
    [|by left].
  right. exists newAois. split; [|done].
  clear -Hconvert. revert newAois Hconvert. generalize 0.
  induction features as [|feature rest IH]; intros k newAois; simpl.
  - by intros [= <-].
  - destruct (geoJSONToAOI (uuid k) (now k) feature) as [aoi|] eqn:Hone; simpl; [|done].
    destruct (convertFrom (S k) uuid now rest) as [others|] eqn:Hrest; simpl; [|done].
    intros [= <-]. constructor; [|by eapply IH].
    apply geoJSONToAOI_Return in Hone as (ring & more & _ & ->); simpl.
    split; [|done]. by apply orDefault_not_empty.
Qed.

Lemma mount_cases window st :
  mount parseStored window st = st \/
  exists loadedAois,
    load parseStored window = Return loadedAois /\
    loadedAois <> [] /\
    mount parseStored window st = setAois loadedAois st.
Proof.
  unfold mount. destruct (load parseStored window) as [[|aoi rest]|]; simpl;
    [by left| |by left].
  right. by eexists.
Qed.

Lemma load_Return window loadedAois :
  load parseStored window = Return loadedAois ->
  loadedAois = [] \/ exists text, parseStored text = Return loadedAois.
Proof.
  unfold load, getItem. destruct window as [[[] entries]|]; simpl;
    try (intros [= <-]; by left).
  destruct (entries !! STORAGE_KEY) as [text|]; simpl; [|intros [= <-]; by left].
  destruct (truthy text); simpl; [|intros [= <-]; by left].
  destruct (parseStored text) eqn:Hparse; simpl; intros [= <-]; [|by left].
  right. by exists text.
Qed.

Lemma saveEdit_cases st :
  saveEdit st = st \/
  exists editing,
    editingId st = Some editing /\ editing <> "" /\
    saveEdit st
    = setEditingName ""
        (setEditingId None
           (setAois
              (map (fun aoi =>
                      if decide (id aoi = editing)
                      then withName aoi (orElse (trim (editingName st)) (name aoi))
                      else aoi)
                   (aois st))
              st)).
Proof.
  unfold saveEdit. destruct (editingId st) as [[|c editing]|]; simpl; [by left| |by left].
  right. by eexists.
Qed.

(** X11.  The selection changes on a click and on nothing else: an event
    after which [selectedAoiId] differs is a click on the row, or a click
    or a context menu on the polygon, of an AOI of the collection.  No
    creation, deletion, import, rename or boundary edit touches it. *)
Theorem X11_selection_changes_only_on_a_click st e :
  selectedAoiId (step forward toPoint calculatePolygonArea toFixed2
       JSON_parse parseStored st e) <> selectedAoiId st ->
  exists row aoi,
    aois st !! row = Some aoi /\
    (e = RowClicked row \/ e = PolygonClicked row \/ e = PolygonContextMenu row).
Proof.
  destruct e as [window|uuid now lyr latLngs|layers| |value|nowMs now
                |row confirmed|confirmed|row|value| |key|row|row|row
                |fileContent uuid now]; simpl; unfold onRow.
  - by destruct (mount_cases window st) as [->|(? & _ & _ & ->)].
  - by destruct (settle_handleCreated uuid now lyr latLngs st) as [->|[? ->]].
  - done.
  - done.
  - done.
  - by destruct (settle_addAOI nowMs now st) as [->|[->|(? & ? & ->)]].
  - destruct (aois st !! row); [|done]. by destruct confirmed.
  - by destruct confirmed.
  - by destruct (aois st !! row).
  - done.
  - by destruct (saveEdit_cases st) as [->|(? & _ & _ & ->)].
  - unfold handleKeyPress. repeat case_decide; try done.
    by destruct (saveEdit_cases st) as [->|(? & _ & _ & ->)].
  - destruct (aois st !! row) as [aoi|] eqn:Hrow; [|done]. intros _.
    exists row, aoi. eauto.
  - destruct (aois st !! row) as [aoi|] eqn:Hrow; [|done]. intros _.
    exists row, aoi. eauto.
  - destruct (aois st !! row) as [aoi|] eqn:Hrow; [|done]. intros _.
    exists row, aoi. eauto.
  - by destruct (settle_handleImport fileContent uuid now st) as [->|(? & _ & ->)].
Qed.

(** The two edit flags move together. *)
Lemma step_keeps_flags_equal st e :
  isEditing st = editMode st -> isEditing
    (step forward toPoint calculatePolygonArea toFixed2
       JSON_parse parseStored st e) = editMode
         (step forward toPoint calculatePolygonArea toFixed2
       JSON_parse parseStored st e).
Proof.
  intros Hflags. destruct e as [window|uuid now lyr latLngs|layers| |value|nowMs now
                |row confirmed|confirmed|row|value| |key|row|row|row
                |fileContent uuid now]; simpl; unfold onRow; try done.
  - by destruct (mount_cases window st) as [->|(? & _ & _ & ->)].
  - by destruct (settle_handleCreated uuid now lyr latLngs st) as [->|[? ->]].
  - by destruct (settle_addAOI nowMs now st) as [->|[->|(? & ? & ->)]].
  - destruct (aois st !! row); [|done]. by destruct confirmed.
  - by destruct confirmed.
  - by destruct (aois st !! row).
  - by destruct (saveEdit_cases st) as [->|(? & _ & _ & ->)].
  - unfold handleKeyPress. repeat case_decide; try done.
    by destruct (saveEdit_cases st) as [->|(? & _ & _ & ->)].
  - by destruct (aois st !! row).
  - by destruct (aois st !! row).
  - destruct (aois st !! row); [|done]. unfold polygonContextMenu.
    by case_decide.
  - by destruct (settle_handleImport fileContent uuid now st) as [->|(? & _ & ->)].
Qed.

(** X12.  In every state the component can reach, [isEditing] of [Map] and
    [editMode] of [MapContent] hold the same value: the manual entry is
    disabled exactly while a boundary is being edited. *)
Theorem X12_edit_flags_agree (events : list (@Event num)) :
  isEditing (run forward toPoint calculatePolygonArea toFixed2
                 JSON_parse parseStored events initialState)
  = editMode (run forward toPoint calculatePolygonArea toFixed2
                  JSON_parse parseStored events initialState).
Proof.
  assert (forall st, isEditing st = editMode st ->
                     isEditing
                       (run forward toPoint calculatePolygonArea toFixed2
       JSON_parse parseStored events st) = editMode
         (run forward toPoint calculatePolygonArea toFixed2
       JSON_parse parseStored events st))
    as Hrun; [|by apply Hrun].
  unfold run. induction events as [|e events IH]; intros st Hflags; simpl; [done|].
  apply IH. by apply step_keeps_flags_equal.
Qed.

(** X13.  Edit mode starts in one way only: by a context menu on the
    polygon of an AOI whose id is the selected one. *)
Theorem X13_edit_mode_starts_on_the_selected_aoi st e :
  editMode st = false ->
  editMode (step forward toPoint calculatePolygonArea toFixed2
       JSON_parse parseStored st e) = true ->
  exists row aoi,
    e = PolygonContextMenu row /\
    aois st !! row = Some aoi /\
    selectedAoiId st = Some (id aoi).
Proof.
  intros Hoff. destruct e as [window|uuid now lyr latLngs|layers| |value|nowMs now
                |row confirmed|confirmed|row|value| |key|row|row|row
                |fileContent uuid now]; simpl; unfold onRow; rewrite ?Hoff; try done.
  - destruct (mount_cases window st) as [->|(? & _ & _ & ->)]; simpl; congruence.
  - destruct (settle_handleCreated uuid now lyr latLngs st) as [->|[? ->]];
      simpl; congruence.
  - destruct (settle_addAOI nowMs now st) as [->|[->|(? & ? & ->)]];
      simpl; congruence.
  - destruct (aois st !! row); [|congruence]. destruct confirmed; simpl; congruence.
  - destruct confirmed; simpl; congruence.
  - destruct (aois st !! row); simpl; congruence.
  - destruct (saveEdit_cases st) as [->|(? & _ & _ & ->)]; simpl; congruence.
  - unfold handleKeyPress. repeat case_decide; simpl; try congruence.
    destruct (saveEdit_cases st) as [->|(? & _ & _ & ->)]; simpl; congruence.
  - destruct (aois st !! row); simpl; congruence.
  - destruct (aois st !! row); simpl; congruence.
  - destruct (aois st !! row) as [aoi|] eqn:Hrow; [|congruence].
    unfold polygonContextMenu. case_decide as Hsel; simpl; [|congruence].
    intros _. by exists row, aoi.
  - destruct (settle_handleImport fileContent uuid now st) as [->|(? & _ & ->)];
      simpl; congruence.
Qed.

(** One step keeps every name non-empty, given that the stored AOIs have
    names. *)
Lemma step_keeps_names st e :
  (forall text loadedAois,
      parseStored text = Return loadedAois ->
      Forall (fun aoi => name aoi <> "") loadedAois) ->
  Forall (fun aoi => name aoi <> "") (aois st) ->
  Forall (fun aoi => name aoi <> "") (aois
    (step forward toPoint calculatePolygonArea toFixed2
       JSON_parse parseStored st e)).
Proof.
  intros Hstored Hnames.
  destruct e as [window|uuid now lyr latLngs|layers| |value|nowMs now
                |row confirmed|confirmed|row|value| |key|row|row|row
                |fileContent uuid now]; cbn [step]; unfold onRow; try done.
  - destruct (mount_cases window st) as [->|(loaded & Hload & _ & ->)]; [done|].
    simpl. apply load_Return in Hload as [->|[text Hparse]]; [done|].
    by eapply Hstored.
  - destruct (settle_handleCreated uuid now lyr latLngs st) as [->|[? ->]]; [done|].
    simpl. apply Forall_app. split; [done|]. by repeat constructor.
  - rewrite handleEdit_aois. apply Forall_fmap.
    eapply Forall_impl; [exact Hnames|]. intros aoi Hname; simpl.
    case_decide; [|done]. by destruct (last layers).
  - destruct (settle_addAOI nowMs now st) as [->|[->|(? & ? & ->)]]; [done|done|].
    simpl. apply Forall_app. split; [done|]. by repeat constructor.
  - destruct (aois st !! row); [|done]. destruct confirmed; [|done].
    simpl. apply Forall_forall. intros aoi [_ Hin]%list_elem_of_filter.
    rewrite Forall_forall in Hnames. by apply Hnames.
  - destruct confirmed; [|done]. constructor.
  - by destruct (aois st !! row).
  - destruct (saveEdit_cases st) as [->|(editing & _ & _ & ->)]; [done|].
    simpl. apply Forall_fmap. eapply Forall_impl; [exact Hnames|].
    intros aoi Hname; simpl. case_decide; [|done]. simpl.
    by apply orElse_not_empty.
  - unfold handleKeyPress. repeat case_decide; try done.
    destruct (saveEdit_cases st) as [->|(editing & _ & _ & ->)]; [done|].
    simpl. apply Forall_fmap. eapply Forall_impl; [exact Hnames|].
    intros aoi Hname; simpl. case_decide; [|done]. simpl.
    by apply orElse_not_empty.
  - by destruct (aois st !! row).
  - by destruct (aois st !! row).
  - destruct (aois st !! row); [|done]. unfold polygonContextMenu. by case_decide.
  - destruct (settle_handleImport fileContent uuid now st)
      as [->|(newAois & Hnew & ->)]; [done|].
    simpl. apply Forall_app. split; [done|].
    eapply Forall_impl; [exact Hnew|]. by intros aoi [Hname _].
Qed.

(** X14.  No AOI ever has an empty name, provided the stored collection
    has none: in every state the component can reach, by whatever drawing,
    manual entry, import, rename, edit, deletion and reload, each AOI has a
    name that is not the empty string. *)
Theorem X14_no_aoi_without_a_name (events : list (@Event num)) :
  (forall text loadedAois,
      parseStored text = Return loadedAois ->
      Forall (fun aoi => name aoi <> "") loadedAois) ->
  Forall (fun aoi => name aoi <> "") (aois
    (run forward toPoint calculatePolygonArea toFixed2
       JSON_parse parseStored events initialState)).
Proof.
  intros Hstored.
  assert (forall st, Forall (fun aoi => name aoi <> "") (aois st) ->
                     Forall (fun aoi => name aoi <> "") (aois
                       (run forward toPoint calculatePolygonArea toFixed2
       JSON_parse parseStored events st)))
    as Hrun; [|apply Hrun; constructor].
  unfold run. induction events as [|e events IH]; intros st Hnames; simpl; [done|].
  apply IH. by apply step_keeps_names.
Qed.

(** X15.  A step keeps the ids pairwise distinct when it brings no id that
    the collection already holds: a draw gesture with a new [randomUUID()],
    a manual entry on a reading of the clock not yet used as an id, and
    any event that is neither a creation, an import nor a reload. *)
Theorem X15_new_ids_keep_the_ids_distinct st e :
  NoDup (ids st) ->
  bringsNoKnownId st e ->
  NoDup (ids (step forward toPoint calculatePolygonArea toFixed2
                   JSON_parse parseStored st e)).
Proof.
  intros Hnodup Hfresh.
  destruct e as [window|uuid now lyr latLngs|layers| |value|nowMs now
                |row confirmed|confirmed|row|value| |key|row|row|row
                |fileContent uuid now]; cbn [step bringsNoKnownId] in *; unfold onRow; try done.
  - destruct (handleCreated forward calculatePolygonArea toFixed2 uuid now lyr latLngs st)
      as [st'|] eqn:Hcreated; simpl; [|done].
    by eapply handleCreated_NoDup.
  - unfold ids. rewrite handleEdit_aois, map_map. simpl.
    erewrite map_ext; [exact Hnodup|]. intros aoi; simpl.
    case_decide; [|done]. by destruct (last layers).
  - destruct (addAOI toPoint nowMs now st) as [st'|] eqn:Hadd; simpl; [|done].
    by eapply addAOI_NoDup.
  - destruct (aois st !! row); [|done]. by apply deleteAOI_NoDup.
  - destruct confirmed; [|done]. constructor.
  - by destruct (aois st !! row).
  - destruct (saveEdit_cases st) as [->|(editing & _ & _ & ->)]; [done|].
    unfold ids; simpl. rewrite map_map.
    erewrite map_ext; [exact Hnodup|]. intros aoi; simpl. by case_decide.
  - unfold handleKeyPress. repeat case_decide; try done.
    destruct (saveEdit_cases st) as [->|(editing & _ & _ & ->)]; [done|].
    unfold ids; simpl. rewrite map_map.
    erewrite map_ext; [exact Hnodup|]. intros aoi; simpl. by case_decide.
  - by destruct (aois st !! row).
  - by destruct (aois st !! row).
  - destruct (aois st !! row); [|done]. unfold polygonContextMenu. by case_decide.
Qed.


End MachineFacts.

Lemma X11_selection_changes_only_on_a_click_witness :
  selectedAoiId (Sample.step editingState (RowClicked 0))
  <> selectedAoiId editingState /\
  exists row aoi,
    aois editingState !! row = Some aoi /\
    (@RowClicked Q 0 = RowClicked row \/ @RowClicked Q 0 = PolygonClicked row \/
     @RowClicked Q 0 = PolygonContextMenu row).
Proof.
  split; [vm_compute; discriminate|].
  apply (X11_selection_changes_only_on_a_click
           Sample.forward Sample.toPoint Sample.calculatePolygonArea
           Sample.toFixed2 Sample.parseCollection Sample.parseStored
           editingState (RowClicked 0)).
  vm_compute. discriminate.
Defined.

Lemma X13_edit_mode_starts_on_the_selected_aoi_witness :
  editMode selectedState = false /\
  editMode (Sample.step selectedState (PolygonContextMenu 0)) = true /\
  exists row aoi,
    @PolygonContextMenu Q 0 = PolygonContextMenu row /\
    aois selectedState !! row = Some aoi /\
    selectedAoiId selectedState = Some (id aoi).
Proof.
  split; [reflexivity|]. split; [reflexivity|].
  apply (X13_edit_mode_starts_on_the_selected_aoi
           Sample.forward Sample.toPoint Sample.calculatePolygonArea
           Sample.toFixed2 Sample.parseCollection Sample.parseStored
           selectedState (PolygonContextMenu 0)).
  - reflexivity.
  - reflexivity.
Defined.

Lemma X14_no_aoi_without_a_name_witness :
  Forall (fun aoi => name aoi <> "")
         (aois (Sample.run
                  [ Mounted (Some harbourStorage);
                    DrawCreated (Sample.uuid 0) (Sample.now 0) 7 (rectangle inject_Z);
                    ImportClicked "polygon" Sample.uuid Sample.now;
                    NameClicked 2;
                    NameChanged "   ";
                    NameKeyDown "Enter" ]
                  initialState)).
Proof.
  apply (X14_no_aoi_without_a_name
           Sample.forward Sample.toPoint Sample.calculatePolygonArea
           Sample.toFixed2 Sample.parseCollection Sample.parseStored).
  intros text loadedAois. unfold Sample.parseStored.
  case_decide; intros [= <-]. repeat constructor. discriminate.
Defined.

Lemma X15_new_ids_keep_the_ids_distinct_witness :
  NoDup (ids selectedState) /\
  NoDup (ids (Sample.step selectedState
                (DrawCreated (Sample.uuid 0) (Sample.now 0) 7 (rectangle inject_Z)))).
Proof.
  assert (NoDup (ids selectedState)) as Hnodup.
  { apply NoDup_cons. split; [|apply NoDup_singleton].
    apply not_elem_of_cons. split; [discriminate|apply not_elem_of_nil]. }
  split; [exact Hnodup|].
  apply (X15_new_ids_keep_the_ids_distinct
           Sample.forward Sample.toPoint Sample.calculatePolygonArea
           Sample.toFixed2 Sample.parseCollection Sample.parseStored
           selectedState
           (DrawCreated (Sample.uuid 0) (Sample.now 0) 7 (rectangle inject_Z))).
  - exact Hnodup.
  - simpl. apply not_elem_of_cons. split; [discriminate|].
    apply not_elem_of_cons. split; [discriminate|apply not_elem_of_nil].
Defined.

(** ** Deletion and manual entry *)

(** X17.  A confirmed [deleteAOI] removes every AOI that carries the id,
    duplicates included, and keeps the others as they were and in order;
    the id is then absent from the collection.  A declined one changes
    nothing. *)
Theorem X17_deleteAOI_removes_every_aoi_with_the_id {num}
        (st : State num) (i : string) :
  deleteAOI i false st = st /\
  sublist (aois (deleteAOI i true st)) (aois st) /\
  (forall aoi, aoi ∈ aois (deleteAOI i true st) <-> aoi ∈ aois st /\ id aoi <> i) /\
  (i ∉ ids (deleteAOI i true st)) /\
  List.length (aois st)
  = List.length (aois (deleteAOI i true st))
    + List.length (filter (fun aoi => id aoi = i) (aois st)).
Proof.
  split_and!; simpl.
  - done.
  - apply sublist_filter.
  - intros aoi. rewrite list_elem_of_filter. tauto.
  - unfold ids; simpl. intros (aoi & Hid & [Hne _]%list_elem_of_filter)%list_elem_of_fmap.
    by apply Hne.
  - induction (aois st) as [|aoi rest IH]; [done|].
    rewrite !filter_cons. destruct (decide (id aoi = i)) as [Heq|Hne].
    + rewrite decide_False by (by intros ?). simpl. lia.
    + rewrite decide_True by done. simpl. lia.
Qed.

(** X18.  A manual entry that [mgrs.toPoint] converts to [[lng, lat]]
    appends one AOI and empties the text box.  The AOI carries the typed
    text as its [mgrsCoordinate] (the text as typed, not the point
    converted back), no dimensions and no layer, and it is exported
    longitude first, as GeoJSON has it: the ring that [aoiToGeoJSON] writes
    lists the four corners (lng - 0.01, lat - 0.01), (lng + 0.01,
    lat - 0.01), (lng + 0.01, lat + 0.01), (lng - 0.01, lat + 0.01), each
    computed in the arithmetic of the numbers. *)
Theorem X18_manual_entry_is_exported_longitude_first
        {num} {number : JsNumber num}
        (toPoint : string -> outcome (num * num)) (nowMs : N) (now : string)
        (st : State num) (lng lat : num) :
  mgrsInput st <> "" ->
  toPoint (mgrsInput st) = Return (lng, lat) ->
  exists created,
    addAOI toPoint nowMs now st
    = Return (setMgrsInput "" (setAois (aois st ++ [created]) st)) /\
    mgrsCoordinate created = mgrsInput st /\
    dimensions created = "" /\
    layer created = None /\
    geojson.geometry (aoiToGeoJSON created)
    = Some (geojson.Polygon
              [[ (sub lng hundredth, sub lat hundredth);
                 (add lng hundredth, sub lat hundredth);
                 (add lng hundredth, add lat hundredth);
                 (sub lng hundredth, add lat hundredth) ]]).
Proof.
  intros Htyped Hpoint. unfold addAOI.
  destruct (mgrsInput st) as [|c typed] eqn:Hinput; [done|].
  simpl truthy. cbv iota. rewrite Hpoint; simpl.
  eexists; split; [reflexivity|]. by split_and!.
Qed.

Lemma X18_manual_entry_is_exported_longitude_first_witness :
  exists created,
    addAOI strictToPoint 1700000000000 (Sample.now 0) typedState
    = Return (setMgrsInput "" (setAois (aois typedState ++ [created]) typedState)) /\
    mgrsCoordinate created = "15TVK1234567890" /\
    geojson.geometry (aoiToGeoJSON created)
    = Some (geojson.Polygon
              [[ (-9301 # 100, 4499 # 100); (-9299 # 100, 4499 # 100);
                 (-9299 # 100, 4501 # 100); (-9301 # 100, 4501 # 100) ]%Q]).
Proof.
  destruct (X18_manual_entry_is_exported_longitude_first
              strictToPoint 1700000000000 (Sample.now 0) typedState (-93)%Q 45%Q)
    as (created & Hadd & Hmgrs & _ & _ & Hring).
  - discriminate.
  - reflexivity.
  - exists created. split_and!; [exact Hadd|exact Hmgrs|].
    rewrite Hring. vm_compute. reflexivity.
Defined.

(** X19.  [addAOI] never throws, and a text that [mgrs.toPoint] does not
    convert costs nothing: the collection and the typed text stay as they
    were (the text is kept for correction, an alert apart). *)
Theorem X19_addAOI_keeps_everything_on_bad_input {num} {number : JsNumber num}
        (toPoint : string -> outcome (num * num)) (nowMs : N) (now : string)
        (st : State num) :
  exists st',
    addAOI toPoint nowMs now st = Return st' /\
    ((forall point, toPoint (mgrsInput st) <> Return point) ->
     aois st' = aois st /\ mgrsInput st' = mgrsInput st /\
     selectedAoiId st' = selectedAoiId st).
Proof.
  unfold addAOI. destruct (truthy (mgrsInput st)); simpl.
  - destruct (toPoint (mgrsInput st)) as [[lng lat]|error] eqn:Hpoint; simpl.
    + eexists; split; [reflexivity|]. intros Hbad. by destruct (Hbad (lng, lat)).
    + eexists; split; [reflexivity|]. done.
  - eexists; split; [reflexivity|]. done.
Qed.

Lemma X19_addAOI_keeps_everything_on_bad_input_witness :
  exists st',
    addAOI strictToPoint 1700000000000 (Sample.now 0) mistypedState = Return st' /\
    aois st' = [filledAoi] /\ mgrsInput st' = "not a grid reference".
Proof.
  destruct (X19_addAOI_keeps_everything_on_bad_input
              strictToPoint 1700000000000 (Sample.now 0) mistypedState)
    as (st' & Hadd & Hkept).
  exists st'. split; [exact Hadd|].
  destruct Hkept as (Haois & Hinput & _); [|by split].
  intros point. vm_compute. discriminate.
Defined.

(** ** Export *)

Lemma sanitized_unit_safe (c : ascii) :
  isFileSafe (toLowerCaseUnit (if isAlphanumeric c then c else "_"%char)) = true.
Proof. destruct c as [[] [] [] [] [] [] [] []]; vm_compute; reflexivity. Qed.

Lemma safe_unit_kept (c : ascii) :
  isFileSafe c = true ->
  toLowerCaseUnit (if isAlphanumeric c then c else "_"%char) = c.
Proof. destruct c as [[] [] [] [] [] [] [] []]; vm_compute; congruence. Qed.

Lemma sanitized_safe (projectName : string) :
  allUnits isFileSafe (sanitizedProjectName projectName) = true.
Proof.
  unfold sanitizedProjectName, toLowerCase, replaceNonAlphanumeric.
  induction projectName as [|c rest IH]; [done|].
  cbn [mapUnits allUnits]. by rewrite sanitized_unit_safe, IH.
Qed.

Lemma safe_name_kept (projectName : string) :
  allUnits isFileSafe projectName = true ->
  sanitizedProjectName projectName = projectName.
Proof.
  unfold sanitizedProjectName, toLowerCase, replaceNonAlphanumeric.
  induction projectName as [|c rest IH]; [done|].
  cbn [mapUnits allUnits]. intros [Hc Hrest]%andb_prop.
  by rewrite safe_unit_kept, IH.
Qed.

(** X20.  The project name that goes into the download's file name has as
    many code units as the project name, all of them lower-case letters,
    digits or underscores; a project name made of such code units goes in
    unchanged, so sanitizing twice changes nothing more. *)
Theorem X20_sanitized_project_name_is_file_safe (projectName : string) :
  String.length (sanitizedProjectName projectName) = String.length projectName /\
  allUnits isFileSafe (sanitizedProjectName projectName) = true /\
  (allUnits isFileSafe projectName = true ->
   sanitizedProjectName projectName = projectName) /\
  sanitizedProjectName (sanitizedProjectName projectName)
  = sanitizedProjectName projectName.
Proof.
  split_and!.
  - unfold sanitizedProjectName, toLowerCase, replaceNonAlphanumeric.
    induction projectName as [|c rest IH]; [done|]. simpl. by rewrite IH.
  - apply sanitized_safe.
  - apply safe_name_kept.
  - apply safe_name_kept, sanitized_safe.
Qed.

Lemma X20_sanitized_project_name_is_file_safe_witness :
  sanitizedProjectName "Test Zone #1" = "test_zone__1" /\
  sanitizedProjectName "test_zone__1" = "test_zone__1".
Proof.
  split; [reflexivity|].
  apply (proj1 (proj2 (proj2 (X20_sanitized_project_name_is_file_safe "test_zone__1")))).
  reflexivity.
Defined.

Lemma beforeFirstT_app (date rest : string) :
  allUnits isNotT date = true ->
  beforeFirstT (date ++ String "T" rest) = date.
Proof.
  induction date as [|c date IH]; simpl; [done|].
  unfold isNotT at 1. intros [Hc Hdate]%andb_prop.
  destruct (Ascii.eqb c "T"); [done|]. by rewrite IH.
Qed.

(** X21.  For a clock reading written as a date, a "T" and a time, the
    download is named after the sanitized project name and the date:
    [<name>_aois_<date>.geojson]. *)
Theorem X21_download_is_named_after_project_and_date
        (projectName date time : string) :
  allUnits isNotT date = true ->
  exportName projectName (date ++ String "T" time)
  = (sanitizedProjectName projectName ++ "_aois_" ++ date ++ ".geojson")%string.
Proof.
  intros Hdate. unfold exportName. by rewrite beforeFirstT_app.
Qed.

Lemma X21_download_is_named_after_project_and_date_witness :
  exportName "Test Zone #1" "2024-06-01T10:20:30.000Z"
  = "test_zone__1_aois_2024-06-01.geojson".
Proof.
  apply (X21_download_is_named_after_project_and_date
           "Test Zone #1" "2024-06-01" "10:20:30.000Z").
  reflexivity.
Defined.

Section ExportFacts.
Context {num : Type}.
Implicit Types (st : State num) (aoi : AOI num).

Lemma convertFrom_exported k uuid now (rows : list (AOI num)) :
  Forall filled rows ->
  convertFrom k uuid now (map aoiToGeoJSON rows) = Return (map withoutLayer rows).
Proof.
  intros Hfilled. revert k.
  induction Hfilled as [|aoi rest (Hid & Hname & Hdate) _ IH]; intros k; [done|].
  cbn [List.map convertFrom].
  rewrite geoJSONToAOI_aoiToGeoJSON, IH; simpl.
  by rewrite !orElse_truthy.
Qed.

Lemma ids_withoutLayer (rows : list (AOI num)) :
  map id (map withoutLayer rows) = map id rows.
Proof. rewrite map_map. by apply map_ext. Qed.

End ExportFacts.

(** X22.  Importing one's own export doubles the collection: when every
    AOI has an id, a name and a date, [handleImport] on the document that
    [exportToGeoJSON] wrote appends a copy of each AOI, without its layer
    handle and under the same id, so that a collection that was not empty
    no longer has pairwise distinct ids. *)
Theorem X22_importing_the_export_doubles_the_collection {num}
        (JSON_parse : string -> outcome (geojson.GeoJSON num))
        (projectName exported currentDate fileContent : string)
        (uuid now : nat -> string) (st : State num) :
  JSON_parse fileContent
  = Return (exportedDocument (exportToGeoJSON projectName exported currentDate st)) ->
  Forall filled (aois st) ->
  handleImport JSON_parse fileContent uuid now st
  = Return (setAois (aois st ++ map withoutLayer (aois st)) st) /\
  ids (setAois (aois st ++ map withoutLayer (aois st)) st) = ids st ++ ids st /\
  (aois st <> [] -> ~ NoDup (ids (setAois (aois st ++ map withoutLayer (aois st)) st))).
Proof.
  intros Hparse Hfilled.
  assert (ids (setAois (aois st ++ map withoutLayer (aois st)) st) = ids st ++ ids st)
    as Hids.
  { unfold ids; simpl. by rewrite map_app, ids_withoutLayer. }
  split_and!; [|done|].
  - unfold handleImport. rewrite Hparse; simpl.
    by rewrite convertFrom_exported.
  - rewrite Hids. unfold ids. destruct (aois st) as [|aoi rest]; [done|].
    intros _ Hnodup. simpl in Hnodup.
    apply NoDup_cons in Hnodup as [Hfresh _]. apply Hfresh.
    apply elem_of_app. right. by left.
Qed.

Lemma X22_importing_the_export_doubles_the_collection_witness :
  handleImport parseOwnExport "export.geojson" Sample.uuid Sample.now
               (setAois [filledAoi] selectedState)
  = Return (setAois ([filledAoi] ++ map withoutLayer [filledAoi]) selectedState) /\
  ids (setAois ([filledAoi] ++ map withoutLayer [filledAoi]) selectedState)
  = ["a1"; "a1"].
Proof.
  destruct (X22_importing_the_export_doubles_the_collection
              parseOwnExport "Test Zone #1" "2024-06-01T10:20:30.000Z"
              "2024-06-01T10:20:30.001Z" "export.geojson" Sample.uuid Sample.now
              (setAois [filledAoi] selectedState))
    as (Himport & Hids & _).
  - reflexivity.
  - repeat constructor; discriminate.
  - split; [exact Himport|reflexivity].
Defined.

(** ** Project name *)

Lemma trimEnd_cons (c : ascii) (s : string) :
  trimEnd (String c s)
  = match trimEnd s with
    | EmptyString => if isWhiteSpace c then EmptyString else String c EmptyString
    | rest => String c rest
    end.
Proof. reflexivity. Qed.

Lemma trimEnd_idempotent (s : string) : trimEnd (trimEnd s) = trimEnd s.
Proof.
  induction s as [|c s IH]; [done|].
  rewrite trimEnd_cons. destruct (trimEnd s) as [|d rest] eqn:Hs.
  - destruct (isWhiteSpace c) eqn:Hc; [done|].
    rewrite trimEnd_cons. simpl. by rewrite Hc.
  - rewrite trimEnd_cons. by rewrite IH.
Qed.

Lemma trimEnd_keeps_head (c : ascii) (s : string) :
  isWhiteSpace c = false -> exists rest, trimEnd (String c s) = String c rest.
Proof.
  intros Hc. rewrite trimEnd_cons, Hc. destruct (trimEnd s); by eexists.
Qed.

Lemma trimStart_head (s : string) :
  trimStart s = "" \/
  exists c rest, trimStart s = String c rest /\ isWhiteSpace c = false.
Proof.
  induction s as [|c s IH]; simpl; [by left|].
  destruct (isWhiteSpace c) eqn:Hc; [done|]. right. by exists c, s.
Qed.

Lemma trim_idempotent (s : string) : trim (trim s) = trim s.
Proof.
  unfold trim. destruct (trimStart_head s) as [->|(c & rest & -> & Hc)]; [done|].
  destruct (trimEnd_keeps_head c rest Hc) as [kept Hkept].
  rewrite Hkept. simpl trimStart. rewrite Hc, <- Hkept.
  apply trimEnd_idempotent.
Qed.

Lemma truthy_not_empty (s : string) : truthy s = true -> s <> "".
Proof. by destruct s. Qed.

Lemma projectStep_keeps_name (p : Project) (e : ProjectEvent) :
  projectName p <> "" -> projectName (projectStep p e) <> "".
Proof.
  intros Hname. destruct e as [[saved|]| |value| |key]; simpl; try done.
  - destruct (truthy saved) eqn:Hsaved; [|done]. by apply truthy_not_empty.
  - destruct (truthy (trim (tempProjectName p))) eqn:Htyped; [|done].
    by apply truthy_not_empty.
  - unfold handleProjectKeyPress. repeat case_decide; try done. simpl.
    destruct (truthy (trim (tempProjectName p))) eqn:Htyped; [|done].
    by apply truthy_not_empty.
Qed.

(** X23.  The project always has a name: whatever is stored, typed,
    confirmed or cancelled, [projectName] is never the empty string. *)
Theorem X23_project_name_is_never_empty (events : list ProjectEvent) :
  projectName (projectRun events initialProject) <> "".
Proof.
  assert (forall p, projectName p <> "" ->
                    projectName (projectRun events p) <> "") as Hrun;
    [|by apply Hrun].
  unfold projectRun. induction events as [|e events IH]; intros p Hname; [done|].
  simpl. apply IH. by apply projectStep_keeps_name.
Qed.

(** X24.  Confirming the typed project name either leaves the name as it
    was (the text trims to nothing) or makes the trimmed text the name; a
    name set this way is not empty and has no white space left to trim.
    In both cases the editing ends. *)
Theorem X24_confirmed_project_name_is_trimmed (p : Project) :
  editingProject (handleProjectNameChange p) = false /\
  ((trim (tempProjectName p) = "" /\
    projectName (handleProjectNameChange p) = projectName p) \/
   (projectName (handleProjectNameChange p) = trim (tempProjectName p) /\
    projectName (handleProjectNameChange p) <> "" /\
    trim (projectName (handleProjectNameChange p))
    = projectName (handleProjectNameChange p))).
Proof.
  split; [done|]. unfold handleProjectNameChange; simpl.
  destruct (trim (tempProjectName p)) as [|c typed] eqn:Htyped; simpl.
  - by left.
  - right. split_and!; [done|done|]. rewrite <- Htyped. apply trim_idempotent.
Qed.

(** X25.  The project name survives a reload: once [projectName] has been
    written under [PROJECT_NAME_KEY], the mount effect of a fresh component
    adopts it, and the write leaves the stored AOIs alone. *)
Theorem X25_project_name_is_restored_on_reload
        (localStorage : Storage) (p : Project) :
  accessible localStorage = true ->
  projectName p <> "" ->
  exists stored,
    persistProjectName localStorage p = Return stored /\
    getItem stored PROJECT_NAME_KEY = Return (Some (projectName p)) /\
    projectName (adoptProjectName (items stored !! PROJECT_NAME_KEY) initialProject)
    = projectName p /\
    items stored !! STORAGE_KEY = items localStorage !! STORAGE_KEY.
Proof.
  intros Haccess Hname. unfold persistProjectName, setItem, getItem.
  rewrite Haccess. eexists; split; [reflexivity|]; simpl.
  rewrite lookup_insert_eq, lookup_insert_ne by done. simpl.
  split_and!; [done| |done].
  by destruct (projectName p).
Qed.

Lemma X25_project_name_is_restored_on_reload_witness :
  exists stored,
    persistProjectName harbourStorage (handleProjectNameChange typingProject)
    = Return stored /\
    projectName (adoptProjectName (items stored !! PROJECT_NAME_KEY) initialProject)
    = "Test Zone #1" /\
    items stored !! STORAGE_KEY = Some "[harbour]".
Proof.
  destruct (X25_project_name_is_restored_on_reload harbourStorage
              (handleProjectNameChange typingProject))
    as (stored & Hpersist & _ & Hname & Haois).
  - reflexivity.
  - discriminate.
  - exists stored. split_and!; [exact Hpersist|exact Hname|].
    rewrite Haois. vm_compute. reflexivity.
Defined.

(** ** Centre and extent *)

Section CentreFacts.
Context {num : Type} {number : JsNumber num}.

Lemma reduce_pair (coords : list (LatLng num)) (a b : num) :
  fold_left (fun acc curr => (add acc.1 (lat curr), add acc.2 (lng curr)))
            coords (a, b)
  = (fold_left (fun sum latlng => add sum (lat latlng)) coords a,
     fold_left (fun sum latlng => add sum (lng latlng)) coords b).
Proof.
  revert a b. induction coords as [|curr rest IH]; intros a b; simpl; [done|].
  by rewrite IH.
Qed.

(** X26.  [getAverageLatLng] computes the centre that [handleCreated]
    computes inline: the pair of the average latitude and the average
    longitude, in whatever arithmetic the numbers have. *)
Theorem X26_getAverageLatLng_is_the_centre_of_handleCreated
        (coords : list (LatLng num)) :
  getAverageLatLng coords = (average lat coords, average lng coords).
Proof. unfold getAverageLatLng, average. by rewrite reduce_pair. Qed.

End CentreFacts.

Lemma Math_min_le (xs : list Q) (x : Q) :
  x ∈ xs -> exists m, Math_min xs = Finite m /\ (m <= x)%Q.
Proof.
  induction xs as [|y rest IH]; [by intros ?%elem_of_nil|].
  intros [->|Hin]%elem_of_cons; simpl.
  - destruct (Math_min rest) as [m| |]; try (eexists; split; [reflexivity|apply Qle_refl]).
    destruct (Qle_bool y m) eqn:Hle; eexists; (split; [reflexivity|]).
    + apply Qle_refl.
    + apply Qlt_le_weak, Qnot_le_lt. rewrite <- Qle_bool_iff. by rewrite Hle.
  - destruct (IH Hin) as (m & -> & Hm).
    destruct (Qle_bool y m) eqn:Hle; eexists; (split; [reflexivity|]); [|done].
    apply Qle_trans with m; [|done]. by apply Qle_bool_iff.
Qed.

Lemma Math_max_ge (xs : list Q) (x : Q) :
  x ∈ xs -> exists m, Math_max xs = Finite m /\ (x <= m)%Q.
Proof.
  induction xs as [|y rest IH]; [by intros ?%elem_of_nil|].
  intros [->|Hin]%elem_of_cons; simpl.
  - destruct (Math_max rest) as [m| |]; try (eexists; split; [reflexivity|apply Qle_refl]).
    destruct (Qle_bool m y) eqn:Hle; eexists; (split; [reflexivity|]).
    + apply Qle_refl.
    + apply Qlt_le_weak, Qnot_le_lt. rewrite <- Qle_bool_iff. by rewrite Hle.
  - destruct (IH Hin) as (m & -> & Hm).
    destruct (Qle_bool m y) eqn:Hle; eexists; (split; [reflexivity|]); [|done].
    apply Qle_trans with m; [done|]. by apply Qle_bool_iff.
Qed.

(** X27.  "Zoom to All AOIs" does nothing on an empty collection and
    otherwise zooms to a box that holds every vertex of every AOI: each
    vertex lies between the two corners in its first and in its second
    coordinate. *)
Theorem X27_zoomToAll_box_holds_every_vertex
        (st : State Q) (aoi : AOI Q) (vertex : Q * Q) :
  aoi ∈ aois st -> vertex ∈ bounds aoi ->
  exists minLat minLng maxLat maxLng,
    zoomToAll st
    = Some ((Finite minLat, Finite minLng), (Finite maxLat, Finite maxLng)) /\
    (minLat <= vertex.1 <= maxLat)%Q /\
    (minLng <= vertex.2 <= maxLng)%Q.
Proof.
  intros Haoi Hvertex. unfold zoomToAll.
  destruct (aois st) as [|first others] eqn:Haois; [by apply elem_of_nil in Haoi|].
  change (Nat.ltb 0 (List.length (first :: others))) with true. cbv iota.
  assert (vertex ∈ flat_map (fun aoi => bounds aoi) (first :: others)) as Hin.
  { apply list_elem_of_In, in_flat_map. exists aoi.
    split; by apply list_elem_of_In. }
  assert (vertex.1 ∈ map (fun b : Q * Q => b.1)
                      (flat_map (fun aoi => bounds aoi) (first :: others))) as Hlat
      by (by apply (list_elem_of_fmap_2 (fun b : Q * Q => b.1))).
  assert (vertex.2 ∈ map (fun b : Q * Q => b.2)
                      (flat_map (fun aoi => bounds aoi) (first :: others))) as Hlng
      by (by apply (list_elem_of_fmap_2 (fun b : Q * Q => b.2))).
  destruct (Math_min_le _ _ Hlat) as (minLat & -> & HminLat).
  destruct (Math_max_ge _ _ Hlat) as (maxLat & -> & HmaxLat).
  destruct (Math_min_le _ _ Hlng) as (minLng & -> & HminLng).
  destruct (Math_max_ge _ _ Hlng) as (maxLng & -> & HmaxLng).
  exists minLat, minLng, maxLat, maxLng. by split_and!.
Qed.

Lemma X27_zoomToAll_box_holds_every_vertex_witness :
  exists minLat minLng maxLat maxLng,
    zoomToAll selectedState
    = Some ((Finite minLat, Finite minLng), (Finite maxLat, Finite maxLng)) /\
    (minLat <= 46 <= maxLat)%Q /\
    (minLng <= -99 <= maxLng)%Q.
Proof.
  apply (X27_zoomToAll_box_holds_every_vertex selectedState filledAoi (46, -99)%Q).
  - by left.
  - right. right. by left.
Defined.

(** X28.  When no AOI of a non-empty collection has a vertex, "Zoom to
    All AOIs" still calls [zoomToBounds], with the corners
    (Infinity, Infinity) and (-Infinity, -Infinity); on an empty collection
    it calls nothing. *)
Theorem X28_zoomToAll_without_vertices (st : State Q) :
  (aois st = [] -> zoomToAll st = None) /\
  (aois st <> [] ->
   Forall (fun aoi => bounds aoi = []) (aois st) ->
   zoomToAll st
   = Some ((Infinity, Infinity), (NegativeInfinity, NegativeInfinity))).
Proof.
  unfold zoomToAll. split.
  - by intros ->.
  - intros Hsome Hhollow. destruct (aois st) as [|first others]; [done|].
    change (Nat.ltb 0 (List.length (first :: others))) with true. cbv iota.
    assert (flat_map (fun aoi : AOI Q => bounds aoi) (first :: others) = []) as ->; [|done].
    clear Hsome. induction Hhollow as [|aoi rest Hempty _ IH]; [done|].
    simpl. by rewrite Hempty, IH.
Qed.

Lemma X28_zoomToAll_without_vertices_witness :
  zoomToAll (setAois [hollowAoi] selectedState)
  = Some ((Infinity, Infinity), (NegativeInfinity, NegativeInfinity)) /\
  zoomToAll (setAois [] selectedState) = None.
Proof.
  split.
  - apply (proj2 (X28_zoomToAll_without_vertices (setAois [hollowAoi] selectedState))).
    + discriminate.
    + repeat constructor.
  - apply (proj1 (X28_zoomToAll_without_vertices (setAois [] selectedState))).
    reflexivity.
Defined.

(** ** Rename twice, draw then export *)

(** X29.  [saveEdit] closes the editor it served, so running it again
    changes nothing: Enter followed by the blur of the input field renames
    once. *)
Theorem X29_saveEdit_twice_is_saveEdit_once {num} (st : State num) :
  saveEdit (saveEdit st) = saveEdit st /\
  saveEdit (handleKeyPress "Enter" st) = handleKeyPress "Enter" st.
Proof.
  assert (saveEdit (saveEdit st) = saveEdit st) as Htwice.
  { destruct (saveEdit_cases st) as [Hsame|(editing & _ & _ & ->)]; [|done].
    by rewrite !Hsame. }
  split; [done|]. unfold handleKeyPress. by rewrite decide_True.
Qed.

(** X30.  A drawn AOI is exported latitude first: the ring that
    [aoiToGeoJSON] writes for the AOI that [handleCreated] appended lists
    each vertex of the gesture as (lat, lng), where GeoJSON positions are
    longitude first. *)
Theorem X30_drawn_aoi_is_exported_latitude_first {num} {number : JsNumber num}
        (forward : num -> num -> outcome string)
        (calculatePolygonArea : list (LatLng num) -> num)
        (toFixed2 : num -> string) (uuid now : string) (lyr : Layer)
        (latLngs : list (LatLng num)) (st st' : State num) :
  handleCreated forward calculatePolygonArea toFixed2 uuid now lyr latLngs st
  = Return st' ->
  exists created,
    aois st' = aois st ++ [created] /\
    geojson.geometry (aoiToGeoJSON created)
    = Some (geojson.Polygon
              [map (fun latlng => (lat latlng, lng latlng)) latLngs]).
Proof.
  intros (centerMgrs & _ & ->)%handleCreated_Return.
  eexists; split; [reflexivity|]. simpl.
  rewrite map_map. by do 3 f_equal.
Qed.

Lemma X30_drawn_aoi_is_exported_latitude_first_witness :
  exists st' created,
    handleCreated Sample.forward Sample.calculatePolygonArea Sample.toFixed2
                  (Sample.uuid 0) (Sample.now 0) 7 (rectangle inject_Z) initialState
    = Return st' /\
    aois st' = aois initialState ++ [created] /\
    geojson.geometry (aoiToGeoJSON created)
    = Some (geojson.Polygon
              [[ (45, -100); (45, -99); (46, -99); (46, -100) ]%Q]).
Proof.
  eexists.
  destruct (X30_drawn_aoi_is_exported_latitude_first
              Sample.forward Sample.calculatePolygonArea Sample.toFixed2
              (Sample.uuid 0) (Sample.now 0) 7 (rectangle inject_Z)
              initialState _ eq_refl)
    as (created & Haois & Hring).
  exists created. by split_and!.
Defined.
